(** * SF Garbage Reporter: the submission endpoint (app/api/submit/route.ts)

    A shallow embedding of the intake handler [POST] and of the helpers it
    calls ([submitSchema], [isInSanFrancisco], [getIdempotencyKey],
    [sendEmailReport], [logWithCorrelation]) together with the in-memory
    idempotency store [recentSubmissions].

    Conventions.
    - A JavaScript number is a rational ([Q]): every finite double is one,
      and comparison, [Math.round], [Math.floor] and [toFixed] are exact
      functions of its value.  Where the arithmetic of doubles rounds (the
      product [lat * 10000] in [getIdempotencyKey]) the result is rounded to
      the nearest double ([JS.to_double]), and a number is rendered in a
      template literal with the shortest digits that read back as it
      ([JS.Number_toString]).
    - Strings are byte strings ([string]); non-ASCII text is its UTF-8.
    - Everything the handler reads from the outside during one request
      (clock, random number, correlation id, what the transport answers)
      is collected in a record of observations [Obs], one field per call
      site; the environment variables are a record [Env].
    - The handler runs in a small state/exception monad [M] over the
      idempotency store and a trace of the effects that were performed
      (log lines and outbound [fetch] calls).  Of a log line the
      correlation id, the level, the message and the message of a logged
      error are kept; its time stamp, the caller's address and the request
      duration are not. *)

From Stdlib Require Import QArith Qround Qabs ZArith Lia Ascii String DecimalString.
From Stdlib Require DecimalZ DecimalPos.
From stdpp Require Import gmap strings list fin_maps.

Open Scope Z_scope.

(* ===================================================================== *)
(** ** Built-in operations of the language and of the platform          *)
(* ===================================================================== *)

Module JS.

Definition LF : string := String (Ascii.ascii_of_nat 10) "".

(** *** Numbers *)

(** [x < y] on numbers. *)
Definition ltb (x y : Q) : bool := negb (Qle_bool y x).

(** [x <= y] on numbers. *)
Definition leb (x y : Q) : bool := Qle_bool x y.

(** Truthiness of a number: every number but zero (NaN does not occur). *)
Definition truthy_number (x : Q) : bool := negb (Qeq_bool x 0).

(** Truthiness of a string: every string but the empty one. *)
Definition truthy_string (s : string) : bool :=
  match s with EmptyString => false | _ => true end.

(** [Math.round]: the nearest integer, halves towards plus infinity. *)
Definition Math_round (x : Q) : Z := Qfloor (x + (1 # 2)).

(** Decimal rendering of an integer, as [String(n)] gives it (below 1e21,
    where JavaScript switches to exponent notation). *)
Definition String_of_int (n : Z) : string := NilZero.string_of_int (Z.to_int n).

Definition digit (d : Z) : ascii := Ascii.ascii_of_nat (48 + Z.to_nat (d mod 10)).

(** The [w] lowest decimal digits of [n], zero padded. *)
Fixpoint pad_digits (w : nat) (n : Z) : string :=
  match w with
  | O => ""
  | S w' => pad_digits w' (n / 10) +:+ String (digit n) ""
  end.

(** [x.toFixed(f)] for [0 <= x < 1e21]: [n] is the integer nearest to
    [x * 10^f], the larger one on a tie. *)
Definition toFixed_abs (f : nat) (x : Q) : string :=
  let n := Qfloor (x * inject_Z (10 ^ Z.of_nat f) + (1 # 2)) in
  String_of_int (n / 10 ^ Z.of_nat f) +:+
  match f with O => "" | _ => "." +:+ pad_digits f n end.

(** [x.toFixed(f)]: a negative number is rendered as ["-"] followed by the
    rendering of its absolute value. *)
Definition toFixed (f : nat) (x : Q) : string :=
  if ltb x 0 then "-" +:+ toFixed_abs f (- x) else toFixed_abs f x.

(** Drop the trailing zeros of a digit string. *)
Fixpoint strip_zeros (s : string) : string :=
  match s with
  | EmptyString => ""
  | String c r =>
      match strip_zeros r with
      | EmptyString => if Ascii.eqb c "0" then "" else String c ""
      | r' => String c r'
      end
  end.

(** [String(n / 10000)] for an integer [n]: the shortest decimal that
    reads back as the double nearest to [n / 10000]. *)
Definition String_of_e4 (n : Z) : string :=
  let a := Z.abs n in
  (if n <? 0 then "-" else "") +:+
  String_of_int (a / 10000) +:+
  match strip_zeros (pad_digits 4 a) with
  | EmptyString => ""
  | frac => "." +:+ frac
  end.

(** *** Doubles *)

(** The nearest integer, halves to the even one. *)
Definition round_half_even (x : Q) : Z :=
  let f := Qfloor x in
  let r := (x - inject_Z f)%Q in
  if ltb r (1 # 2) then f
  else if ltb (1 # 2) r then f + 1
  else if Z.even f then f else f + 1.

(** The exponent [e] with [2^e <= x < 2^(e+1)], for a positive [x]. *)
Definition ilog2 (x : Q) : Z :=
  let e := Z.log2 (Qnum x) - Z.log2 (Z.pos (Qden x)) in
  if leb (2 ^ e) x then e else e - 1.

(** The double nearest to a number: 53 significant bits, the exponent not
    below -1022, round to nearest, ties to even (for a number below the
    overflow threshold 2^1024). *)
Definition to_double (x : Q) : Q :=
  if Qeq_bool x 0 then 0
  else
    let a := Qabs x in
    let e := Z.max (ilog2 a) (-1022) in
    let ulp := (2 ^ (e - 52))%Q in
    let r := (inject_Z (round_half_even (a / ulp)) * ulp)%Q in
    if ltb x 0 then (- r)%Q else r.

(** [x * y] on doubles. *)
Definition mul (x y : Q) : Q := to_double (x * y).

(** The double nearest to an integer, which is an integer. *)
Definition double_of_int (n : Z) : Z := Qfloor (to_double (inject_Z n)).

(** The number of decimal digits of a positive integer. *)
Definition digits (n : Z) : Z := Z.of_nat (String.length (String_of_int n)).

(** The two decimals with [k] significant digits next to the positive
    integral double [v], and the choice among those that read back as [v]:
    the closer one, the even one on a tie. *)
Definition shortest_at (v : Z) (k : Z) : option Z :=
  let j := Z.max (digits v - k) 0 in
  let lo := v / 10 ^ j * 10 ^ j in
  let hi := lo + 10 ^ j in
  let ok_lo := double_of_int lo =? v in
  let ok_hi := double_of_int hi =? v in
  if ok_lo && ok_hi then
    if v - lo <? hi - v then Some lo
    else if hi - v <? v - lo then Some hi
    else if Z.even (lo / 10 ^ j) then Some lo else Some hi
  else if ok_lo then Some lo
  else if ok_hi then Some hi
  else None.

Fixpoint shortest_from (v : Z) (k : Z) (fuel : nat) : Z :=
  match fuel with
  | O => v
  | S fuel' =>
      match shortest_at v k with
      | Some c => c
      | None => shortest_from v (k + 1) fuel'
      end
  end.

(** The decimal with the fewest significant digits that reads back as the
    positive integral double [v]; seventeen digits always do. *)
Definition shortest (v : Z) : Z := shortest_from v 1 17.

(** [String(v)] for a positive integral double [v]: the digits of
    [shortest v], plain when they are at most 21, in exponent notation
    otherwise. *)
Definition Number_toString_pos (v : Z) : string :=
  let c := shortest v in
  let all := String_of_int c in
  let n := Z.of_nat (String.length all) in
  if n <=? 21 then all
  else
    match strip_zeros all with
    | String d EmptyString => String d "" +:+ "e+" +:+ String_of_int (n - 1)
    | String d rest => String d "" +:+ "." +:+ rest +:+ "e+" +:+ String_of_int (n - 1)
    | EmptyString => all
    end.

(** [String(n)], as a template literal renders it, for the integral double
    nearest to [n] (minus zero is rendered as ["0"]). *)
Definition Number_toString (n : Z) : string :=
  let v := double_of_int n in
  if v =? 0 then "0"
  else if v <? 0 then "-" +:+ Number_toString_pos (- v)
  else Number_toString_pos v.

(** *** Strings *)

(** [s.split(sep)] for a one-character separator. *)
Fixpoint split (sep : ascii) (s : string) : list string :=
  match s with
  | EmptyString => [""]
  | String c r =>
      if Ascii.eqb c sep then "" :: split sep r
      else match split sep r with
           | h :: t => String c h :: t
           | [] => [String c ""]
           end
  end.

(** White space, as far as it is ASCII. *)
Definition is_space (c : ascii) : bool :=
  let n := Ascii.nat_of_ascii c in
  ((9 <=? n) && (n <=? 13) || (n =? 32))%nat.

Fixpoint trimStart (s : string) : string :=
  match s with
  | EmptyString => ""
  | String c r => if is_space c then trimStart r else s
  end.

Fixpoint trimEnd (s : string) : string :=
  match s with
  | EmptyString => ""
  | String c r =>
      match trimEnd r with
      | EmptyString => if is_space c then "" else String c ""
      | r' => String c r'
      end
  end.

(** [s.trim()]. *)
Definition trim (s : string) : string := trimEnd (trimStart s).

(** *** Dates *)

(** [new Date(v)]: the time value of the date, or [None] for an invalid
    date (a number beyond 8.64e15 ms on either side); a fractional
    number of milliseconds is truncated towards zero. *)
Definition TimeClip (v : Q) : option Z :=
  if leb (-8640000000000000) v && leb v 8640000000000000
  then Some (Z.quot (Qnum v) (Z.pos (Qden v)))
  else None.

(** Year, month and day of the day number [z] (days since 1970-01-01) in
    the proleptic Gregorian calendar. *)
Definition civil_from_days (z : Z) : Z * Z * Z :=
  let z := z + 719468 in
  let era := z / 146097 in
  let doe := z - era * 146097 in
  let yoe := (doe - doe / 1460 + doe / 36524 - doe / 146096) / 365 in
  let doy := doe - (365 * yoe + yoe / 4 - yoe / 100) in
  let mp := (5 * doy + 2) / 153 in
  let d := doy - (153 * mp + 2) / 5 + 1 in
  let m := if mp <? 10 then mp + 3 else mp - 9 in
  let y := yoe + era * 400 + (if m <=? 2 then 1 else 0) in
  (y, m, d).

(** Four digits for the years 0 to 9999, a sign and six digits otherwise. *)
Definition iso_year (y : Z) : string :=
  if (0 <=? y) && (y <=? 9999) then pad_digits 4 y
  else (if y <? 0 then "-" else "+") +:+ pad_digits 6 (Z.abs y).

(** The ISO-8601 rendering [YYYY-MM-DDTHH:mm:ss.sssZ] of a time value. *)
Definition iso_of_time (tv : Z) : string :=
  let '(y, m, d) := civil_from_days (tv / 86400000) in
  let ms := tv mod 86400000 in
  iso_year y +:+ "-" +:+ pad_digits 2 m +:+ "-" +:+ pad_digits 2 d +:+ "T" +:+
  pad_digits 2 (ms / 3600000) +:+ ":" +:+
  pad_digits 2 (ms / 60000 mod 60) +:+ ":" +:+
  pad_digits 2 (ms / 1000 mod 60) +:+ "." +:+
  pad_digits 3 (ms mod 1000) +:+ "Z".

(** [new Date(v).toISOString()]: [None] stands for the [RangeError] that an
    invalid date raises. *)
Definition Date_toISOString (v : Q) : option string :=
  iso_of_time <$> TimeClip v.

End JS.

(* ===================================================================== *)
(** ** Data model                                                        *)
(* ===================================================================== *)

(** A parsed JSON value, as [request.json()] and [response.json()] return
    it.  The fields of an object are its own properties: the keys are
    distinct and [json_get] returns the value of the first match. *)
#[warnings="-register-all"]
Inductive json :=
| JNull
| JBool (b : bool)
| JNum (n : Q)
| JStr (s : string)
| JArr (items : list json)
| JObj (fields : list (string * json)).

Fixpoint assoc (k : string) (fields : list (string * json)) : option json :=
  match fields with
  | [] => None
  | (k', v) :: rest => if String.eqb k k' then Some v else assoc k rest
  end.

(** [v[k]] for a value [v] that is not [null]: [None] is [undefined]. *)
Definition json_get (k : string) (v : json) : option json :=
  match v with
  | JObj fields => assoc k fields
  | _ => None
  end.

(** [z.infer<typeof submitSchema>]: the validated payload. *)
Record SubmitData := {
  lat : Q;
  lon : Q;
  accuracy : option Q;
  timestamp : option Q;
  client_nonce : string;
  message : option string;
  photoBase64 : option string;
}.

(** The two shapes of response object the handler builds:
    [{status, reference}] and [{status, code, message}]. *)
Module Response.
Record t := {
  status : string;
  reference : option json;
  code : option string;
  message : option string;
}.
End Response.

(** [NextResponse.json(body, {status})]. *)
Record NextResponse := {
  http_status : Z;
  body : Response.t;
}.

(** A value of the [recentSubmissions] map. *)
Module Entry.
Record t := {
  timestamp : Z;
  response : Response.t;
}.
End Entry.

Module Email.
Record attachment := {
  filename : string;
  content : option string;
}.
(** [emailPayload], the JSON body posted to the transport. *)
Record t := {
  from : string;
  to : string;
  subject : string;
  text : string;
  attachments : list attachment;
}.
End Email.

(** What [sendEmailReport] resolves to. *)
Module EmailResult.
Record t := {
  success : bool;
  reference : option json;
  error : option string;
}.
End EmailResult.

(** The transport's HTTP response: status, body text, and the body parsed
    as JSON ([None] when [response.json()] rejects). *)
Module Reply.
Record t := {
  status : Z;
  text : string;
  json_body : option json;
}.
Definition ok (r : t) : bool := (200 <=? status r) && (status r <=? 299).
End Reply.

(** What [fetch] does when it is called: it rejects (network failure, or the
    15 s [AbortSignal.timeout] fired) or it resolves to a response. *)
Inductive FetchResult :=
| Rejects (reason : string)
| Responds (r : Reply.t).

(** [process.env], as far as the handler reads it. *)
Record Env := {
  RESEND_API_KEY : option string;
  SENDER_EMAIL : option string;
  CITY_OPERATIONS_EMAIL : option string;
}.

(** The incoming request: [req_body] is what [request.json()] resolves to,
    [None] when the body is not JSON. *)
Record NextRequest := {
  req_body : option json;
}.

(** What one run of the handler observes, one field per call site. *)
Record Obs := {
  randomUUID : string;      (* crypto.randomUUID(), the correlation id      *)
  now_key : Z;              (* Date.now() in getIdempotencyKey              *)
  now_check : Z;            (* Date.now() in the liveness test of a record  *)
  now_report : Z;           (* Date.now() in the report's "When:" line      *)
  fetched : FetchResult;    (* the outcome of fetch, if it is called        *)
  now_write : Z;            (* Date.now() at recentSubmissions.set          *)
  random : Q;               (* Math.random()                                *)
  now_sweep : Z;            (* Date.now() at the computation of the cut-off *)
}.

Inductive level := info | warn | error.

(** Thrown values: a [ZodError], or any other error with its message. *)
Inductive exn :=
| ZodError
| Error (msg : string).

(** [error.message].  The message of a [ZodError] is the issue list in the
    validation library's own wording, which is not modelled: the fixed text
    stands for it, as do the texts of the errors that the JSON parsers
    raise. *)
Definition exn_message (e : exn) : string :=
  match e with
  | ZodError => "ZodError"
  | Error msg => msg
  end.

(** The effects of a run, in the order in which they happen: the lines
    written by [logWithCorrelation] (correlation id, level, message and, for
    an error line, the error's message) and the calls of [fetch] (the bearer
    token and the posted payload). *)
Inductive event :=
| Log (correlationId : string) (lvl : level) (msg : string) (err : option string)
| Fetch (bearer : string) (payload : Email.t).

(* ===================================================================== *)
(** ** The monad of the handler                                          *)
(* ===================================================================== *)

Record world := {
  recentSubmissions : gmap string Entry.t;
  trace : list event;
}.

Inductive outcome (A : Type) :=
| Ret (a : A)
| Throw (e : exn).
Arguments Ret {A} a.
Arguments Throw {A} e.

Definition M (A : Type) : Type := world -> outcome A * world.

Definition ret {A} (a : A) : M A := fun w => (Ret a, w).

Definition throw {A} (e : exn) : M A := fun w => (Throw e, w).

Definition bind {A B} (m : M A) (k : A -> M B) : M B :=
  fun w => match m w with
           | (Ret a, w') => k a w'
           | (Throw e, w') => (Throw e, w')
           end.

(** [try { m } catch (e) { h e }]: the state reached at the throw is kept. *)
Definition try_catch {A} (m : M A) (h : exn -> M A) : M A :=
  fun w => match m w with
           | (Throw e, w') => h e w'
           | r => r
           end.

Declare Scope m_scope.
Delimit Scope m_scope with M.
Notation "x <- m ;; k" := (bind m (fun x => k))
  (at level 100, m at next level, right associativity) : m_scope.
Notation "m ;; k" := (bind m (fun _ => k))
  (at level 100, right associativity) : m_scope.

(** The world after some more effects. *)
Definition add_events (evs : list event) (w : world) : world :=
  {| recentSubmissions := recentSubmissions w; trace := trace w ++ evs |}.

Definition emit (ev : event) : M unit :=
  fun w => (Ret tt, add_events [ev] w).

(** A value that may be a thrown error. *)
Definition lift {A} (e : exn) (o : option A) : M A :=
  match o with
  | Some a => ret a
  | None => throw e
  end.

Definition Map_get (k : string) : M (option Entry.t) :=
  fun w => (Ret (recentSubmissions w !! k), w).

Definition Map_set (k : string) (v : Entry.t) : M unit :=
  fun w => (Ret tt, {| recentSubmissions := <[k := v]> (recentSubmissions w);
                       trace := trace w |}).

(** The clean-up loop: every entry whose timestamp is before the cut-off is
    deleted. *)
Definition sweep (cutoff : Z) (m : gmap string Entry.t) : gmap string Entry.t :=
  filter (fun kv : string * Entry.t => ¬ (Entry.timestamp kv.2 < cutoff)) m.

Definition Map_sweep (cutoff : Z) : M unit :=
  fun w => (Ret tt, {| recentSubmissions := sweep cutoff (recentSubmissions w);
                       trace := trace w |}).

(* ===================================================================== *)
(** ** The route                                                        *)
(* ===================================================================== *)

(** The schema combinators of the validation library, on parsed JSON:
    [None] is a validation issue. *)
Module z.
Definition schema (A : Type) : Type := json -> option A.
(** [z.number()] *)
Definition number : schema Q :=
  fun v => match v with JNum n => Some n | _ => None end.
(** [z.string()] *)
Definition string : schema String.string :=
  fun v => match v with JStr s => Some s | _ => None end.
(** [.min(lo)] *)
Definition min (lo : Q) (s : schema Q) : schema Q :=
  fun v => match s v with
           | Some n => if JS.leb lo n then Some n else None
           | None => None
           end.
(** [.max(hi)] *)
Definition max (hi : Q) (s : schema Q) : schema Q :=
  fun v => match s v with
           | Some n => if JS.leb n hi then Some n else None
           | None => None
           end.
(** [.uuid()], for the library's pattern [p]. *)
Definition uuid (p : String.string -> bool) (s : schema String.string) : schema String.string :=
  fun v => match s v with
           | Some x => if p x then Some x else None
           | None => None
           end.
(** A required key of an object schema: an absent key is an issue. *)
Definition required {A} (s : schema A) (v : option json) : option A :=
  match v with
  | Some j => s j
  | None => None
  end.
(** [.optional()]: an absent key is accepted, a present one is checked
    ([null] is a value like any other, and is refused by [number] and
    [string]). *)
Definition optional {A} (s : schema A) (v : option json) : option (option A) :=
  match v with
  | None => Some None
  | Some j => match s j with
              | Some a => Some (Some a)
              | None => None
              end
  end.
End z.

Record Bounds := { north : Q; south : Q; east : Q; west : Q }.

Definition SF_BOUNDS : Bounds :=
  {| north := 37.8324; south := 37.7049; east := -122.3482; west := -122.5277 |}.

Definition isInSanFrancisco (lat lon : Q) : bool :=
  JS.leb (south SF_BOUNDS) lat && JS.leb lat (north SF_BOUNDS) &&
  JS.leb (west SF_BOUNDS) lon && JS.leb lon (east SF_BOUNDS).

Definition logWithCorrelation (correlationId : string) (lvl : level)
    (msg : string) (err : option string) : M unit :=
  emit (Log correlationId lvl msg err).

(** [a || b] on an optional string: [b] when [a] is absent or empty. *)
Definition or_default (a : option string) (b : string) : string :=
  match a with
  | Some s => if JS.truthy_string s then s else b
  | None => b
  end.

Definition getIdempotencyKey (now : Z) (data : SubmitData) : string :=
  let roundedLat := JS.Math_round (JS.mul (lat data) 10000) in
  let roundedLon := JS.Math_round (JS.mul (lon data) 10000) in
  let minuteBucket := now / 60000 in
  JS.String_of_e4 roundedLat +:+ "," +:+ JS.String_of_e4 roundedLon +:+ "," +:+
  JS.String_of_int minuteBucket +:+ "," +:+ client_nonce data.

(** The [attachments] array built from the payload. *)
Definition attachments_of (data : SubmitData) : list Email.attachment :=
  match photoBase64 data with
  | Some photo =>
      if JS.truthy_string photo
      then [ {| Email.filename := "photo.jpg";
                Email.content := JS.split "," photo !! 1%nat |} ]
      else []
  | None => []
  end.

(** The time shown in the report: [data.timestamp || Date.now()]. *)
Definition report_time (now : Z) (data : SubmitData) : Q :=
  match timestamp data with
  | Some t => if JS.truthy_number t then t else inject_Z now
  | None => inject_Z now
  end.

Definition accuracy_note (data : SubmitData) : string :=
  match accuracy data with
  | Some a =>
      if JS.truthy_number a
      then "(±" +:+ JS.Number_toString (JS.Math_round a) +:+ "m)"
      else ""
  | None => ""
  end.

Definition where_line (data : SubmitData) : string :=
  JS.toFixed 6 (lat data) +:+ "," +:+ JS.toFixed 6 (lon data).

(** The template literal of the [text] field between its first line break
    and its last one. *)
Definition report_text (when : string) (data : SubmitData) (correlationId : string) : string :=
  "Source: QR-Driven Garbage Reporting Webapp" +:+ JS.LF +:+
  "When: " +:+ when +:+ JS.LF +:+
  "Where: " +:+ where_line data +:+ " " +:+ accuracy_note data +:+ JS.LF +:+
  "Report ID: " +:+ client_nonce data +:+ JS.LF +:+
  "Correlation ID: " +:+ correlationId +:+ JS.LF +:+
  JS.LF +:+
  "---" +:+ JS.LF +:+
  "User Message:" +:+ JS.LF +:+
  or_default (message data) "No message provided." +:+ JS.LF +:+
  "---".

(** The template literal of the [text] field, before [.trim()]: it opens
    with a line break and closes with a line break and the six spaces that
    indent the closing back quote. *)
Definition text_template (when : string) (data : SubmitData) (correlationId : string) : string :=
  JS.LF +:+ report_text when data correlationId +:+ JS.LF +:+ "      ".

(** The object literal [emailPayload]; evaluating its [text] raises a
    [RangeError] when the report time is not a valid date. *)
Definition emailPayload (env : Env) (now : Z) (data : SubmitData)
    (correlationId : string) : option Email.t :=
  when ← JS.Date_toISOString (report_time now data);
  Some {| Email.from := or_default (SENDER_EMAIL env) "reports@qr-garbage-reporter.com";
          Email.to := or_default (CITY_OPERATIONS_EMAIL env) "operations@sf.gov";
          Email.subject := "Litter report — " +:+ where_line data +:+ " — QR Reporter";
          Email.text := JS.trim (text_template when data correlationId);
          Email.attachments := attachments_of data |}.

(** [await fetch(url, {..., body: JSON.stringify(payload)})]: the call is
    recorded, and its outcome is the observed one. *)
Definition fetch (o : Obs) (bearer : string) (payload : Email.t) : M Reply.t :=
  (emit (Fetch bearer payload) ;;
   match fetched o with
   | Rejects reason => throw (Error reason)
   | Responds r => ret r
   end)%M.

(** [result.id]: a [TypeError] on [null], [undefined] on a value without
    that property. *)
Definition result_id (result : json) : M (option json) :=
  match result with
  | JNull => throw (Error "Cannot read properties of null (reading 'id')")
  | _ => ret (json_get "id" result)
  end.

(** [process.env.RESEND_API_KEY], when it is set and not empty. *)
Definition api_key (env : Env) : option string :=
  match RESEND_API_KEY env with
  | Some k => if JS.truthy_string k then Some k else None
  | None => None
  end.

Definition sendEmailReport (env : Env) (o : Obs) (data : SubmitData)
    (correlationId : string) : M EmailResult.t :=
  try_catch
    (key <- lift (Error "RESEND_API_KEY not configured") (api_key env) ;;
     payload <- lift (Error "Invalid time value")
                     (emailPayload env (now_report o) data correlationId) ;;
     response <- fetch o key payload ;;
     (if negb (Reply.ok response)
      then throw (Error ("Email API error: " +:+ JS.String_of_int (Reply.status response)
                         +:+ " " +:+ Reply.text response))
      else ret tt) ;;
     result <- lift (Error "Unexpected token in JSON") (Reply.json_body response) ;;
     id <- result_id result ;;
     logWithCorrelation correlationId info "Email sent successfully" None ;;
     ret {| EmailResult.success := true;
            EmailResult.reference := id;
            EmailResult.error := None |})%M
    (fun e =>
       logWithCorrelation correlationId error "Failed to send email" (Some (exn_message e)) ;;
       ret {| EmailResult.success := false;
              EmailResult.reference := None;
              EmailResult.error := Some (exn_message e) |})%M.

Definition success_response (reference : option json) : Response.t :=
  {| Response.status := "success"; Response.reference := reference;
     Response.code := None; Response.message := None |}.

Definition error_response (code msg : string) : Response.t :=
  {| Response.status := "error"; Response.reference := None;
     Response.code := Some code; Response.message := Some msg |}.

Section Route.

(** [z.string().uuid()]: the pattern is the validation library's. *)
Variable is_uuid : string -> bool.

(** [submitSchema.parse(body)]: [None] stands for the thrown [ZodError].
    Keys that the schema does not name are dropped. *)
Definition submitSchema (body : json) : option SubmitData :=
  match body with
  | JObj _ =>
      lat ← z.required (z.max 90 (z.min (-90) z.number)) (json_get "lat" body);
      lon ← z.required (z.max 180 (z.min (-180) z.number)) (json_get "lon" body);
      accuracy ← z.optional z.number (json_get "accuracy" body);
      timestamp ← z.optional z.number (json_get "timestamp" body);
      client_nonce ← z.required (z.uuid is_uuid z.string) (json_get "client_nonce" body);
      message ← z.optional z.string (json_get "message" body);
      photoBase64 ← z.optional z.string (json_get "photoBase64" body);
      Some {| lat := lat; lon := lon; accuracy := accuracy; timestamp := timestamp;
              client_nonce := client_nonce; message := message;
              photoBase64 := photoBase64 |}
  | _ => None
  end.

(** The record found for the key, when it is younger than five minutes:
    [existing && Date.now() - existing.timestamp < 300000]. *)
Definition live (now : Z) (existing : option Entry.t) : option Entry.t :=
  match existing with
  | Some e => if now - Entry.timestamp e <? 300000 then Some e else None
  | None => None
  end.

Definition POST (env : Env) (request : NextRequest) (o : Obs) : M NextResponse :=
  let correlationId := randomUUID o in
  try_catch
    (logWithCorrelation correlationId info "Report submission started" None ;;
     body <- lift (Error "Unexpected end of JSON input") (req_body request) ;;
     validatedData <- lift ZodError (submitSchema body) ;;
     (* Check idempotency *)
     let idempotencyKey := getIdempotencyKey (now_key o) validatedData in
     existing <- Map_get idempotencyKey ;;
     match live (now_check o) existing with
     | Some e =>
         logWithCorrelation correlationId info "Duplicate submission detected" None ;;
         ret {| http_status := 200; body := Entry.response e |}
     | None =>
         (* the location bounds check is commented out at this point *)
         (* Attempt to send email report *)
         emailResult <- sendEmailReport env o validatedData correlationId ;;
         (if negb (EmailResult.success emailResult)
          then throw (Error (or_default (EmailResult.error emailResult)
                                        "Failed to send report email."))
          else ret tt) ;;
         let response := success_response (EmailResult.reference emailResult) in
         Map_set idempotencyKey {| Entry.timestamp := now_write o;
                                   Entry.response := response |} ;;
         (* Clean up old entries periodically *)
         (if JS.ltb (random o) 0.01
          then Map_sweep (now_sweep o - 300000)
          else ret tt) ;;
         logWithCorrelation correlationId info "Report submission completed" None ;;
         ret {| http_status := 200; body := response |}
     end)%M
    (fun e =>
       (logWithCorrelation correlationId error "API error" (Some (exn_message e)) ;;
        match e with
        | ZodError =>
            ret {| http_status := 400;
                   body := error_response "bad_request" "Invalid request data" |}
        | Error _ =>
            ret {| http_status := 500;
                   body := error_response "server_error" "Internal server error" |}
        end)%M).

End Route.

(** Running a computation from a given store, with an empty trace. *)
Definition run {A} (m : M A) (store : gmap string Entry.t) : outcome A * world :=
  m {| recentSubmissions := store; trace := [] |}.

(** The payloads posted to the transport in a trace. *)
Fixpoint fetches (t : list event) : list Email.t :=
  match t with
  | [] => []
  | Fetch _ payload :: rest => payload :: fetches rest
  | Log _ _ _ _ :: rest => fetches rest
  end.

(** *** A concrete reading of the UUID pattern

    Five groups of 8, 4, 4, 4 and 12 hexadecimal digits separated by
    hyphens. *)
Definition is_hex (c : ascii) : bool :=
  let n := Ascii.nat_of_ascii c in
  ((48 <=? n) && (n <=? 57) || (65 <=? n) && (n <=? 70) || (97 <=? n) && (n <=? 102))%nat.

Fixpoint all_hex (s : string) : bool :=
  match s with
  | EmptyString => true
  | String c r => is_hex c && all_hex r
  end.

Definition group_ok (n : nat) (g : string) : bool :=
  (String.length g =? n)%nat && all_hex g.

Definition uuid_shape (s : string) : bool :=
  match JS.split "-" s with
  | [a; b; c; d; e] =>
      group_ok 8 a && group_ok 4 b && group_ok 4 c && group_ok 4 d && group_ok 12 e
  | _ => false
  end.

(** *** Sample inputs *)

Module Sample.

Definition nonce : string := "a0d4b216-f4cf-4219-822b-f83e49a6cccb".

(** The payload of the concrete scenario. *)
Definition payload : json :=
  JObj [("lat", JNum 37.7749); ("lon", JNum (-122.4194)); ("accuracy", JNum 10);
        ("client_nonce", JStr nonce); ("message", JStr "Boxes behind bus stop")].

Definition request : NextRequest := {| req_body := Some payload |}.

(** The payload as validated. *)
Definition data : SubmitData :=
  {| lat := 37.7749; lon := -122.4194; accuracy := Some 10%Q; timestamp := None;
     client_nonce := nonce; message := Some "Boxes behind bus stop";
     photoBase64 := None |}.

Definition env : Env :=
  {| RESEND_API_KEY := Some "re_test"; SENDER_EMAIL := None;
     CITY_OPERATIONS_EMAIL := None |}.

Definition healthy : FetchResult :=
  Responds {| Reply.status := 200; Reply.text := "{id:email_123}";
              Reply.json_body := Some (JObj [("id", JStr "email_123")]) |}.

Definition unavailable : FetchResult :=
  Responds {| Reply.status := 503; Reply.text := "Service Unavailable";
              Reply.json_body := None |}.

(** A run in which every clock reading is [now]. *)
Definition at_time (now : Z) (f : FetchResult) : Obs :=
  {| randomUUID := "req-1"; now_key := now; now_check := now; now_report := now;
     fetched := f; now_write := now; random := 0.5; now_sweep := now |}.

End Sample.

(* ===================================================================== *)
(** ** The paths through the handler                                    *)
(* ===================================================================== *)

(** What the code after [fetch] makes of the transport's answer: the
    message of the error it raises, or the [id] of the parsed result. *)
Definition transport_reply (f : FetchResult) : string + option json :=
  match f with
  | Rejects reason => inl reason
  | Responds r =>
      if negb (Reply.ok r)
      then inl ("Email API error: " +:+ JS.String_of_int (Reply.status r)
                +:+ " " +:+ Reply.text r)
      else match Reply.json_body r with
           | None => inl "Unexpected token in JSON"
           | Some JNull => inl "Cannot read properties of null (reading 'id')"
           | Some result => inr (json_get "id" result)
           end
  end.

Definition failure (msg : string) : EmailResult.t :=
  {| EmailResult.success := false; EmailResult.reference := None;
     EmailResult.error := Some msg |}.

Definition bad_request : NextResponse :=
  {| http_status := 400; body := error_response "bad_request" "Invalid request data" |}.

Definition server_error : NextResponse :=
  {| http_status := 500; body := error_response "server_error" "Internal server error" |}.

(** The outcomes of [sendEmailReport]: its result and the effects it
    performs, path by path. *)
Inductive Dispatch (env : Env) (o : Obs) (data : SubmitData) (cid : string)
  : EmailResult.t -> list event -> Prop :=
| D_no_key :
    api_key env = None ->
    Dispatch env o data cid (failure "RESEND_API_KEY not configured")
      [Log cid error "Failed to send email" (Some "RESEND_API_KEY not configured")]
| D_bad_time key :
    api_key env = Some key ->
    emailPayload env (now_report o) data cid = None ->
    Dispatch env o data cid (failure "Invalid time value")
      [Log cid error "Failed to send email" (Some "Invalid time value")]
| D_failed key payload msg :
    api_key env = Some key ->
    emailPayload env (now_report o) data cid = Some payload ->
    transport_reply (fetched o) = inl msg ->
    Dispatch env o data cid (failure msg)
      [Fetch key payload; Log cid error "Failed to send email" (Some msg)]
| D_sent key payload id :
    api_key env = Some key ->
    emailPayload env (now_report o) data cid = Some payload ->
    transport_reply (fetched o) = inr id ->
    Dispatch env o data cid
      {| EmailResult.success := true; EmailResult.reference := id;
         EmailResult.error := None |}
      [Fetch key payload; Log cid info "Email sent successfully" None].

(** The store after a successful dispatch: the record is written, then the
    clean-up runs when the random number is below 0.01. *)
Definition after_write (o : Obs) (key : string) (response : Response.t)
    (store : gmap string Entry.t) : gmap string Entry.t :=
  let store' := <[key := {| Entry.timestamp := now_write o;
                            Entry.response := response |}]> store in
  if JS.ltb (random o) 0.01 then sweep (now_sweep o - 300000) store' else store'.

(** The outcomes of [POST] from the world [w]: the response and the world
    it leaves, path by path. *)
Inductive Handled (is_uuid : string -> bool) (env : Env) (request : NextRequest)
    (o : Obs) (w : world) : NextResponse -> world -> Prop :=
| H_malformed :
    req_body request = None ->
    Handled is_uuid env request o w server_error
      (add_events [Log (randomUUID o) info "Report submission started" None;
                   Log (randomUUID o) error "API error"
                       (Some "Unexpected end of JSON input")] w)
| H_invalid body :
    req_body request = Some body ->
    submitSchema is_uuid body = None ->
    Handled is_uuid env request o w bad_request
      (add_events [Log (randomUUID o) info "Report submission started" None;
                   Log (randomUUID o) error "API error" (Some "ZodError")] w)
| H_duplicate body data e :
    req_body request = Some body ->
    submitSchema is_uuid body = Some data ->
    live (now_check o)
         (recentSubmissions w !! getIdempotencyKey (now_key o) data) = Some e ->
    Handled is_uuid env request o w
      {| http_status := 200; body := Entry.response e |}
      (add_events [Log (randomUUID o) info "Report submission started" None;
                   Log (randomUUID o) info "Duplicate submission detected" None] w)
| H_failed body data res evs :
    req_body request = Some body ->
    submitSchema is_uuid body = Some data ->
    live (now_check o)
         (recentSubmissions w !! getIdempotencyKey (now_key o) data) = None ->
    Dispatch env o data (randomUUID o) res evs ->
    EmailResult.success res = false ->
    Handled is_uuid env request o w server_error
      (add_events ([Log (randomUUID o) info "Report submission started" None] ++ evs ++
                   [Log (randomUUID o) error "API error"
                        (Some (or_default (EmailResult.error res)
                                          "Failed to send report email."))]) w)
| H_success body data res evs :
    req_body request = Some body ->
    submitSchema is_uuid body = Some data ->
    live (now_check o)
         (recentSubmissions w !! getIdempotencyKey (now_key o) data) = None ->
    Dispatch env o data (randomUUID o) res evs ->
    EmailResult.success res = true ->
    Handled is_uuid env request o w
      {| http_status := 200; body := success_response (EmailResult.reference res) |}
      {| recentSubmissions :=
           after_write o (getIdempotencyKey (now_key o) data)
                       (success_response (EmailResult.reference res))
                       (recentSubmissions w);
         trace := trace w ++
                  [Log (randomUUID o) info "Report submission started" None] ++ evs ++
                  [Log (randomUUID o) info "Report submission completed" None] |}.


(* ===================================================================== *)
(** ** Vocabulary of the properties                                      *)
(* ===================================================================== *)

(** The request whose body parses to [body]. *)
Definition post (body : json) : NextRequest := {| req_body := Some body |}.

(** The world in which a run starts. *)
Definition initial (store : gmap string Entry.t) : world :=
  {| recentSubmissions := store; trace := [] |}.

(** The field is a number outside [[lo, hi]]. *)
Definition outside (lo hi : Q) (v : option json) : bool :=
  match v with
  | Some (JNum n) => JS.ltb n lo || JS.ltb hi n
  | _ => false
  end.

(** The field is a string that the UUID pattern refuses. *)
Definition not_uuid (is_uuid : string -> bool) (v : option json) : bool :=
  match v with
  | Some (JStr s) => negb (is_uuid s)
  | _ => false
  end.

(** The transport call times out (or fails on the network), or the
    transport answers with a status that is not a success. *)
Definition transport_fails (f : FetchResult) : bool :=
  match f with
  | Rejects _ => true
  | Responds r => negb (Reply.ok r)
  end.

(** The validated payload with another accuracy. *)
Definition with_accuracy (a : option Q) (d : SubmitData) : SubmitData :=
  {| lat := lat d; lon := lon d; accuracy := a; timestamp := timestamp d;
     client_nonce := client_nonce d; message := message d;
     photoBase64 := photoBase64 d |}.

(** The sample payload without its accuracy. *)
Definition sample_bare : list (string * json) :=
  [("lat", JNum 37.7749); ("lon", JNum (-122.4194));
   ("client_nonce", JStr Sample.nonce); ("message", JStr "Boxes behind bus stop")].

(** The clock reading is a time value that [Date] can represent (which
    [Date.now()] always is). *)
Definition valid_clock (now : Z) : bool :=
  (-8640000000000000 <=? now) && (now <=? 8640000000000000).

(** The fingerprint of a submission, in the words of the specification: the
    latitude and the longitude rounded to four decimal places (as numbers of
    ten-thousandths), the minute bucket, and the client nonce. *)
Definition fingerprint (now : Z) (d : SubmitData) : Z * Z * Z * string :=
  (JS.Math_round (lat d * 10000), JS.Math_round (lon d * 10000),
   now / 60000, client_nonce d).

(** The stores that the process can hold: the map is created empty and is
    changed by the runs of the handler only. *)
Inductive reachable (is_uuid : string -> bool) : gmap string Entry.t -> Prop :=
| reach_start : reachable is_uuid ∅
| reach_step env request o store r w :
    reachable is_uuid store ->
    run (POST is_uuid env request o) store = (Ret r, w) ->
    reachable is_uuid (recentSubmissions w).

(** Every cached response is a success response. *)
Definition cached_success (store : gmap string Entry.t) : Prop :=
  forall k e, store !! k = Some e ->
    exists id, Entry.response e = success_response id.

(** A valid payload at latitude 0, longitude 0. *)
Definition null_island : json :=
  JObj [("lat", JNum 0); ("lon", JNum 0); ("client_nonce", JStr Sample.nonce)].

(** The string has no comma. *)
Fixpoint no_comma (s : string) : bool :=
  match s with
  | EmptyString => true
  | String c r => negb (Ascii.eqb c ",") && no_comma r
  end.

(** The string is made of white space. *)
Fixpoint all_space (s : string) : bool :=
  match s with
  | EmptyString => true
  | String c r => JS.is_space c && all_space r
  end.

(** The scenario payload with a zero accuracy. *)
Definition zero_accuracy : json := JObj (("accuracy", JNum 0) :: sample_bare).

(** The scenario payload with an empty photo string. *)
Definition empty_photo : json := JObj (("photoBase64", JStr "") :: sample_bare).

(** The scenario payload with a photo as bare base64, without the data-URL
    prefix. *)
Definition bare_photo : json := JObj (("photoBase64", JStr "/9j/4AAQ") :: sample_bare).

(** The scenario payload with a photo as a data URL. *)
Definition with_photo : json :=
  JObj (("photoBase64", JStr "data:image/jpeg;base64,/9j/4AAQ") :: sample_bare).

(** The scenario payload with a latitude of 200. *)
Definition lat_200 : json :=
  JObj [("lat", JNum 200); ("lon", JNum (-122.4194)); ("client_nonce", JStr Sample.nonce)].

(** The scenario payload with a negative accuracy. *)
Definition negative_accuracy : json := JObj (("accuracy", JNum (-5)) :: sample_bare).

(** [sample_bare] as validated. *)
Definition bare_data : SubmitData := with_accuracy None Sample.data.

(** 2024-01-08T00:06:35.643Z *)
Definition t0 : Z := 1704672395643.

(** A first run at [t0] with a healthy transport, and what it leaves. *)
Definition first_run : outcome NextResponse * world :=
  run (POST uuid_shape Sample.env Sample.request (Sample.at_time t0 Sample.healthy)) ∅.

Definition email_123 : NextResponse :=
  {| http_status := 200; body := success_response (Some (JStr "email_123")) |}.

(** A second run ten seconds later, in the same minute. *)
Definition ten_seconds_later : Obs := Sample.at_time (t0 + 10000) Sample.healthy.

(** A second run whose key is computed in the same minute and whose
    liveness test reads a clock five minutes past the first run's write. *)
Definition five_minutes_later : Obs :=
  {| randomUUID := "req-2"; now_key := t0 + 1000; now_check := t0 + 300000;
     now_report := t0 + 300000; fetched := Sample.healthy;
     now_write := t0 + 300000; random := 0.5; now_sweep := t0 + 300000 |}.

Definition no_key : Env :=
  {| RESEND_API_KEY := None; SENDER_EMAIL := None; CITY_OPERATIONS_EMAIL := None |}.

(** The first payload posted in a run. *)
Definition posted (x : outcome NextResponse * world) : option Email.t :=
  head (fetches (trace x.2)).

(* ===================================================================== *)
(** ** Further vocabulary                                                *)
(* ===================================================================== *)

(** The keys that [submitSchema] names. *)
Definition schema_keys : list string :=
  ["lat"; "lon"; "accuracy"; "timestamp"; "client_nonce"; "message"; "photoBase64"].

(** The optional keys of [submitSchema]. *)
Definition optional_keys : list string :=
  ["accuracy"; "timestamp"; "message"; "photoBase64"].

(** The request whose body is not JSON. *)
Definition malformed : NextRequest := {| req_body := None |}.

(** The store that a run leaves. *)
Definition next_store (is_uuid : string -> bool) (store : gmap string Entry.t)
    (x : Env * NextRequest * Obs) : gmap string Entry.t :=
  recentSubmissions (run (POST is_uuid x.1.1 x.1.2 x.2) store).2.

(** The store after a sequence of runs, one after the other. *)
Definition serve (is_uuid : string -> bool) (xs : list (Env * NextRequest * Obs))
    (store : gmap string Entry.t) : gmap string Entry.t :=
  fold_left (next_store is_uuid) xs store.

(** The record is live at the clock readings of the run: younger than five
    minutes at the liveness test and at the clean-up. *)
Definition live_during (e : Entry.t) (x : Env * NextRequest * Obs) : Prop :=
  now_check x.2 - Entry.timestamp e < 300000 /\
  now_sweep x.2 - 300000 <= Entry.timestamp e.

(** A run in which the clean-up is triggered. *)
Definition sweeping (now : Z) (f : FetchResult) : Obs :=
  {| randomUUID := "req-3"; now_key := now; now_check := now; now_report := now;
     fetched := f; now_write := now; random := 0.001; now_sweep := now |}.

(** A store with one record written ten minutes before [t0]. *)
Definition old_store : gmap string Entry.t :=
  {[ "stale" := {| Entry.timestamp := t0 - 600000;
                   Entry.response := success_response None |} ]}.

(** A second run thirty seconds after [t0], in the next minute. *)
Definition thirty_seconds_later : Obs := Sample.at_time (t0 + 30000) Sample.healthy.

(** The key comes from a payload that the schema accepts. *)
Definition key_of_valid_payload (is_uuid : string -> bool) (k : string) : Prop :=
  exists now data,
    k = getIdempotencyKey now data /\
    is_uuid (client_nonce data) = true /\
    (-90 <= lat data)%Q /\ (lat data <= 90)%Q /\
    (-180 <= lon data)%Q /\ (lon data <= 180)%Q.

(** A transport that accepts the email and answers with a body that is not
    JSON. *)
Definition accepted_no_json : FetchResult :=
  Responds {| Reply.status := 202; Reply.text := "Accepted"; Reply.json_body := None |}.

(** A transport that accepts the email and answers with an object without
    an [id]. *)
Definition accepted_no_id : FetchResult :=
  Responds {| Reply.status := 200; Reply.text := "{}"; Reply.json_body := Some (JObj []) |}.

(* ===================================================================== *)
(** ** The health route (app/api/health/route.ts)                        *)
(* ===================================================================== *)

(** [process.env] as the health route reads it: the variables of the submit
    route and three more. *)
Record ProcessEnv := {
  submit_env : Env;
  npm_package_version : option string;
  NODE_ENV : option string;
  TURNSTILE_SECRET_KEY : option string;
}.

Module Health.
Record services := {
  email : bool;
  turnstile : bool;
}.
Record t := {
  status : string;
  timestamp : string;
  version : string;
  environment : string;
  services_of : services;
}.
End Health.

(** [!!v] on an environment variable: set and not empty. *)
Definition is_set (v : option string) : bool :=
  match v with
  | Some s => JS.truthy_string s
  | None => false
  end.

(** [GET]: the object [health] that the route returns as JSON; [None]
    stands for the [RangeError] of [toISOString] on an invalid date. *)
Definition GET (penv : ProcessEnv) (now : Z) : option Health.t :=
  timestamp ← JS.Date_toISOString (inject_Z now);
  Some {| Health.status := "healthy";
          Health.timestamp := timestamp;
          Health.version := or_default (npm_package_version penv) "1.0.0";
          Health.environment := or_default (NODE_ENV penv) "development";
          Health.services_of :=
            {| Health.email := is_set (RESEND_API_KEY (submit_env penv));
               Health.turnstile := is_set (TURNSTILE_SECRET_KEY penv) |} |}.

(** The sample environment, as the health route sees it. *)
Definition sample_process_env : ProcessEnv :=
  {| submit_env := Sample.env; npm_package_version := None; NODE_ENV := None;
     TURNSTILE_SECRET_KEY := None |}.

(* ===================================================================== *)
(** ** The page (app/page.tsx)                                           *)
(* ===================================================================== *)

Module LocationData.
Record t := {
  lat : Q;
  lon : Q;
  accuracy : Q;
  timestamp : Z;
}.
End LocationData.

(** The response as the page reads it. *)
Module SubmissionResponse.
Record t := {
  status : string;
  reference : option json;
  message : option string;
}.
End SubmissionResponse.

Module Photo.
Record t := {
  name : string;
  dataUrl : string;
}.
End Photo.

(** What [navigator.geolocation] does: it is missing, or
    [getCurrentPosition] yields coordinates, or fails with a
    [GeolocationPositionError] of some code, or with another error. *)
Inductive Geolocation :=
| Unsupported
| Located (latitude longitude accuracy : Q)
| PositionError (code : Z)
| OtherError.

(** What [fetch("/api/submit", ...)] and [res.json()] give: a thrown error
    (no connection, or a body that is not JSON), or [res.ok] and the parsed
    body. *)
Inductive Exchange :=
| NetworkError
| Answered (ok : bool) (result : SubmissionResponse.t).

Module Page.

Inductive SubmissionState :=
| Idle
| RequestingLocation
| Submitting
| Success
| Error.

(** The state variables of [ReportPage]. *)
Record t := {
  state : SubmissionState;
  location : option LocationData.t;
  response : option SubmissionResponse.t;
  error : string;
  message : string;
  photo : option Photo.t;
}.

Definition setState (s : SubmissionState) (p : t) : t :=
  {| state := s; location := location p; response := response p; error := error p;
     message := message p; photo := photo p |}.

Definition setLocation (l : option LocationData.t) (p : t) : t :=
  {| state := state p; location := l; response := response p; error := error p;
     message := message p; photo := photo p |}.

Definition setResponse (r : option SubmissionResponse.t) (p : t) : t :=
  {| state := state p; location := location p; response := r; error := error p;
     message := message p; photo := photo p |}.

Definition setError (e : string) (p : t) : t :=
  {| state := state p; location := location p; response := response p; error := e;
     message := message p; photo := photo p |}.

(** The object [payload] of [submitReport], as the server parses it:
    [JSON.stringify] leaves out [photoBase64] when no photo is held. *)
Definition payload (locationData : LocationData.t) (client_nonce : string) (p : t) : json :=
  JObj ([("lat", JNum (LocationData.lat locationData));
         ("lon", JNum (LocationData.lon locationData));
         ("accuracy", JNum (LocationData.accuracy locationData));
         ("timestamp", JNum (inject_Z (LocationData.timestamp locationData)));
         ("client_nonce", JStr client_nonce);
         ("message", JStr (message p))] ++
        match photo p with
        | Some ph => [("photoBase64", JStr (Photo.dataUrl ph))]
        | None => []
        end).

(** [submitReport]: [nonce] is what [generateClientNonce()] returns and
    [fetch] is the exchange with the server for a given payload. *)
Definition submitReport (fetch : json -> Exchange) (nonce : string)
    (locationData : LocationData.t) (p : t) : t :=
  let p := setState Submitting p in
  match fetch (payload locationData nonce p) with
  | Answered true result => setState Success (setResponse (Some result) p)
  | Answered false result =>
      setState Error
        (setError (or_default (SubmissionResponse.message result)
                              "Failed to submit report. Please try again.") p)
  | NetworkError =>
      setState Error
        (setError "Network error. Please check your connection and try again." p)
  end.

(** [requestLocation]: [now] is the [Date.now()] taken when the position
    arrives. *)
Definition requestLocation (geo : Geolocation) (now : Z) (fetch : json -> Exchange)
    (nonce : string) (p : t) : t :=
  let p := setError "" (setState RequestingLocation p) in
  match geo with
  | Unsupported =>
      setState Error (setError "Geolocation is not supported by this browser." p)
  | Located latitude longitude accuracy =>
      let locationData :=
        {| LocationData.lat := latitude; LocationData.lon := longitude;
           LocationData.accuracy := accuracy; LocationData.timestamp := now |} in
      submitReport fetch nonce locationData (setLocation (Some locationData) p)
  | PositionError code =>
      setState Error
        (setError
           (if code =? 1
            then "Location access denied. Please enable location and try again."
            else if code =? 2
            then "Location information unavailable. Please try again."
            else if code =? 3
            then "Location request timed out. Please try again."
            else "An error occurred while getting your location.") p)
  | OtherError =>
      setState Error (setError "Failed to get location. Please try again." p)
  end.

(** [retry] *)
Definition retry (p : t) : t :=
  {| state := Idle; location := None; response := None; error := "";
     message := ""; photo := None |}.

End Page.

(** The response of the submit route as the page receives it: [res.ok] and
    the JSON body. *)
Definition answer (r : NextResponse) : Exchange :=
  Answered ((200 <=? http_status r) && (http_status r <=? 299))
           {| SubmissionResponse.status := Response.status (body r);
              SubmissionResponse.reference := Response.reference (body r);
              SubmissionResponse.message := Response.message (body r) |}.

(** The submit route as the page reaches it, in a given run. *)
Definition submit_route (is_uuid : string -> bool) (env : Env) (o : Obs)
    (store : gmap string Entry.t) (payload : json) : Exchange :=
  match (run (POST is_uuid env (post payload) o) store).1 with
  | Ret r => answer r
  | Throw _ => NetworkError
  end.

(** What the schema makes of the page's payload. *)
Definition page_data (locationData : LocationData.t) (client_nonce : string)
    (p : Page.t) : SubmitData :=
  {| lat := LocationData.lat locationData;
     lon := LocationData.lon locationData;
     accuracy := Some (LocationData.accuracy locationData);
     timestamp := Some (inject_Z (LocationData.timestamp locationData));
     client_nonce := client_nonce;
     message := Some (Page.message p);
     photoBase64 := Photo.dataUrl <$> Page.photo p |}.

(** The coordinates are within the ranges of latitudes and longitudes. *)
Definition on_earth (latitude longitude : Q) : Prop :=
  (-90 <= latitude)%Q /\ (latitude <= 90)%Q /\
  (-180 <= longitude)%Q /\ (longitude <= 180)%Q.

(** The page as it is first rendered, with a typed message. *)
Definition fresh_page (typed : string) : Page.t :=
  {| Page.state := Page.Idle; Page.location := None; Page.response := None;
     Page.error := ""; Page.message := typed; Page.photo := None |}.

(** The sample payload with a key that the schema does not name. *)
Definition with_unknown_key : json := JObj (("honeypot", JStr "x") :: sample_bare).

(** The sample payload with a [null] message. *)
Definition null_message : list (string * json) :=
  [("lat", JNum 37.7749); ("lon", JNum (-122.4194));
   ("client_nonce", JStr Sample.nonce); ("message", JNull)].

(** Another request served five seconds after [t0]. *)
Definition other_traffic : list (Env * NextRequest * Obs) :=
  [(Sample.env, post null_island, sweeping (t0 + 5000) Sample.healthy)].

(** The record that the first run writes. *)
Definition first_record : Entry.t :=
  {| Entry.timestamp := t0; Entry.response := success_response (Some (JStr "email_123")) |}.

(** The parts of which [getIdempotencyKey] makes the key: the rounded
    products, the minute bucket and the nonce. *)
Definition key_parts (now : Z) (d : SubmitData) : Z * Z * Z * string :=
  (JS.Math_round (JS.mul (lat d) 10000), JS.Math_round (JS.mul (lon d) 10000),
   now / 60000, client_nonce d).

(** The doubles that the JSON literals 37.74935, 37.7493 and -122.4194
    denote. *)
Definition double_37_74935 : Q := (5312748706046201 # 140737488355328).
Definition double_37_7493 : Q := (5312741669171783 # 140737488355328).
Definition double_m122_4194 : Q := (- 538406215061445 # 4398046511104).

(** The payload [{lat: 37.74935, lon: -122.4194, client_nonce}]. *)
Definition tie_payload : json :=
  JObj [("lat", JNum double_37_74935); ("lon", JNum double_m122_4194);
        ("client_nonce", JStr Sample.nonce)].

(** The payload [{lat: 37.7493, lon: -122.4194, client_nonce}]. *)
Definition flat_payload : json :=
  JObj [("lat", JNum double_37_7493); ("lon", JNum double_m122_4194);
        ("client_nonce", JStr Sample.nonce)].

Definition tie_data : SubmitData :=
  {| lat := double_37_74935; lon := double_m122_4194; accuracy := None;
     timestamp := None; client_nonce := Sample.nonce; message := None;
     photoBase64 := None |}.

Definition flat_data : SubmitData :=
  {| lat := double_37_7493; lon := double_m122_4194; accuracy := None;
     timestamp := None; client_nonce := Sample.nonce; message := None;
     photoBase64 := None |}.

(** The run of [tie_payload] at [t0] with a healthy transport. *)
Definition tie_run : outcome NextResponse * world :=
  run (POST uuid_shape Sample.env (post tie_payload) (Sample.at_time t0 Sample.healthy)) ∅.
Lemma add_events_add_events (a b : list event) (w : world) :
  add_events b (add_events a w) = add_events (a ++ b) w.
Proof. unfold add_events; simpl. by rewrite <- app_assoc. Qed.

Lemma fetches_app (a b : list event) : fetches (a ++ b) = fetches a ++ fetches b.
Proof.
  induction a as [|[] a IH]; simpl; [done | done |].
  by rewrite IH.
Qed.

Section Paths.

Context (env : Env) (o : Obs) (data : SubmitData) (cid : string).

(** Without an API key nothing is sent. *)
Lemma sendEmailReport_no_key (w : world) :
  api_key env = None ->
  sendEmailReport env o data cid w =
    (Ret (failure "RESEND_API_KEY not configured"),
     add_events [Log cid error "Failed to send email"
                     (Some "RESEND_API_KEY not configured")] w).
Proof.
  intros Hk. unfold sendEmailReport, try_catch, bind. rewrite Hk. reflexivity.
Qed.

(** With a report time that is not a valid date nothing is sent. *)
Lemma sendEmailReport_bad_time (w : world) (key : string) :
  api_key env = Some key ->
  emailPayload env (now_report o) data cid = None ->
  sendEmailReport env o data cid w =
    (Ret (failure "Invalid time value"),
     add_events [Log cid error "Failed to send email" (Some "Invalid time value")] w).
Proof.
  intros Hk Hp. unfold sendEmailReport, try_catch, bind. rewrite Hk, Hp. reflexivity.
Qed.

(** The transport was called and the call failed. *)
Lemma sendEmailReport_failed (w : world) (key : string) (payload : Email.t) (msg : string) :
  api_key env = Some key ->
  emailPayload env (now_report o) data cid = Some payload ->
  transport_reply (fetched o) = inl msg ->
  sendEmailReport env o data cid w =
    (Ret (failure msg),
     add_events [Fetch key payload; Log cid error "Failed to send email" (Some msg)] w).
Proof.
  intros Hk Hp Hr. unfold sendEmailReport, try_catch, bind, fetch, bind. rewrite Hk, Hp.
  simpl. unfold transport_reply in Hr.
  destruct (fetched o) as [reason | r]; simpl.
  - injection Hr as <-. by rewrite add_events_add_events.
  - destruct (negb (Reply.ok r)); simpl.
    + injection Hr as <-. by rewrite add_events_add_events.
    + destruct (Reply.json_body r) as [[]|]; simplify_eq; simpl;
        by rewrite add_events_add_events.
Qed.

(** The transport was called and answered with a result. *)
Lemma sendEmailReport_sent (w : world) (key : string) (payload : Email.t) (id : option json) :
  api_key env = Some key ->
  emailPayload env (now_report o) data cid = Some payload ->
  transport_reply (fetched o) = inr id ->
  sendEmailReport env o data cid w =
    (Ret {| EmailResult.success := true; EmailResult.reference := id;
            EmailResult.error := None |},
     add_events [Fetch key payload; Log cid info "Email sent successfully" None] w).
Proof.
  intros Hk Hp Hr. unfold sendEmailReport, try_catch, bind, fetch, bind. rewrite Hk, Hp.
  simpl. unfold transport_reply in Hr.
  destruct (fetched o) as [reason | r]; simpl; [done |].
  destruct (negb (Reply.ok r)); simpl; [done |].
  destruct (Reply.json_body r) as [[]|]; simplify_eq; simpl;
    by rewrite add_events_add_events.
Qed.

End Paths.

(** [sendEmailReport] never throws, leaves the store alone, and does what
    one of the four paths says. *)
Lemma sendEmailReport_correct env o data cid w :
  exists res evs,
    sendEmailReport env o data cid w = (Ret res, add_events evs w) /\
    Dispatch env o data cid res evs.
Proof.
  destruct (api_key env) as [key|] eqn:Hk.
  - destruct (emailPayload env (now_report o) data cid) as [payload|] eqn:Hp.
    + destruct (transport_reply (fetched o)) as [msg|id] eqn:Hr.
      * eexists _, _. split; [by eapply sendEmailReport_failed | by eapply D_failed].
      * eexists _, _. split; [by eapply sendEmailReport_sent | by eapply D_sent].
    + eexists _, _. split; [by eapply sendEmailReport_bad_time | by eapply D_bad_time].
  - eexists _, _. split; [by eapply sendEmailReport_no_key | by eapply D_no_key].
Qed.

(** [POST] always returns a response, and does what one of the five paths
    says. *)
Lemma POST_correct is_uuid env request o w :
  exists r w',
    POST is_uuid env request o w = (Ret r, w') /\
    Handled is_uuid env request o w r w'.
Proof.
  unfold POST, try_catch, bind, logWithCorrelation, emit, lift. simpl.
  destruct (req_body request) as [body|] eqn:Hb; simpl.
  2:{ eexists _, _. split; [| by apply H_malformed].
      by rewrite add_events_add_events. }
  destruct (submitSchema is_uuid body) as [data|] eqn:Hv; simpl.
  2:{ eexists _, _. split; [| by eapply H_invalid].
      by rewrite add_events_add_events. }
  destruct (live (now_check o)
              (recentSubmissions w !! getIdempotencyKey (now_key o) data))
    as [e|] eqn:Hl; simpl.
  { eexists _, _. split; [| by eapply H_duplicate].
    by rewrite add_events_add_events. }
  destruct (sendEmailReport_correct env o data (randomUUID o)
              (add_events [Log (randomUUID o) info "Report submission started" None] w))
    as (res & evs & -> & Hd).
  destruct (EmailResult.success res) eqn:Hs; simpl.
  - eexists _, _. split; [| by eapply H_success].
    unfold Map_set, after_write. simpl.
    destruct (JS.ltb (random o) 0.01); simpl;
      unfold add_events; simpl; by rewrite <- ?List.app_assoc.
  - eexists _, _. split; [| by eapply H_failed].
    unfold add_events; simpl. by rewrite <- ?List.app_assoc.
Qed.

Lemma run_POST is_uuid env request o store :
  exists r w,
    run (POST is_uuid env request o) store = (Ret r, w) /\
    Handled is_uuid env request o (initial store) r w.
Proof. apply POST_correct. Qed.

Lemma Handled_of_run is_uuid env request o store r w :
  run (POST is_uuid env request o) store = (Ret r, w) ->
  Handled is_uuid env request o (initial store) r w.
Proof.
  intros Hrun. destruct (run_POST is_uuid env request o store) as (r' & w' & Hrun' & HH).
  rewrite Hrun in Hrun'. by simplify_eq.
Qed.

(** *** Validation *)

Lemma submitSchema_lat is_uuid body :
  outside (-90) 90 (json_get "lat" body) = true -> submitSchema is_uuid body = None.
Proof.
  unfold outside, submitSchema. destruct body as [| | | | |fields]; try done.
  destruct (json_get "lat" (JObj fields)) as [[]|]; try done.
  intros H. unfold z.required, z.max, z.min, z.number, JS.ltb, JS.leb in *.
  apply orb_true_iff in H as [H|H]; apply negb_true_iff in H.
  - by rewrite H.
  - destruct (Qle_bool _ n); [| done]. by rewrite H.
Qed.

Lemma submitSchema_lon is_uuid body :
  outside (-180) 180 (json_get "lon" body) = true -> submitSchema is_uuid body = None.
Proof.
  unfold outside, submitSchema. destruct body as [| | | | |fields]; try done.
  destruct (json_get "lon" (JObj fields)) as [[]|]; try done.
  intros H. destruct (z.required _ (json_get "lat" _)); [| done].
  unfold z.required, z.max, z.min, z.number, JS.ltb, JS.leb in *. cbn [mbind option_bind].
  apply orb_true_iff in H as [H|H]; apply negb_true_iff in H.
  - by rewrite H.
  - destruct (Qle_bool _ n); [| done]. by rewrite H.
Qed.

Lemma submitSchema_nonce is_uuid body :
  not_uuid is_uuid (json_get "client_nonce" body) = true ->
  submitSchema is_uuid body = None.
Proof.
  unfold not_uuid, submitSchema. destruct body as [| | | | |fields]; try done.
  destruct (json_get "client_nonce" (JObj fields)) as [[]|]; try done.
  intros H%negb_true_iff.
  destruct (z.required _ (json_get "lat" _)); [| done].
  destruct (z.required _ (json_get "lon" _)); [| done].
  destruct (z.optional _ (json_get "accuracy" _)); [| done].
  destruct (z.optional _ (json_get "timestamp" _)); [| done].
  unfold z.required, z.uuid, z.string. cbn [mbind option_bind]. by rewrite H.
Qed.

(** Whatever makes validation fail, the handler answers 400 [bad_request]
    with the generic message, sends nothing and leaves the store alone. *)
Lemma POST_invalid is_uuid env body o store :
  submitSchema is_uuid body = None ->
  exists w,
    run (POST is_uuid env (post body) o) store = (Ret bad_request, w) /\
    fetches (trace w) = [] /\
    recentSubmissions w = store.
Proof.
  intros Hv. destruct (run_POST is_uuid env (post body) o store) as (r & w & Hrun & HH).
  inversion HH; simplify_eq/=. eauto.
Qed.

(** C1. A payload whose [lat] is a number outside [-90, 90], or whose [lon]
    is a number outside [-180, 180], or whose [client_nonce] is a string that
    is not a UUID, is answered with HTTP 400 and the body
    [{status: "error", code: "bad_request", message: "Invalid request data"}];
    no call of the email transport is made for that request (and the
    idempotency store is not touched). *)
Theorem C1_invalid_payload_is_bad_request is_uuid env body o store :
  outside (-90) 90 (json_get "lat" body) = true \/
  outside (-180) 180 (json_get "lon" body) = true \/
  not_uuid is_uuid (json_get "client_nonce" body) = true ->
  exists w,
    run (POST is_uuid env (post body) o) store =
      (Ret {| http_status := 400;
              body := {| Response.status := "error";
                         Response.reference := None;
                         Response.code := Some "bad_request";
                         Response.message := Some "Invalid request data" |} |}, w) /\
    fetches (trace w) = [] /\
    recentSubmissions w = store.
Proof.
  intros H. apply POST_invalid.
  destruct H as [H | [H | H]];
    [by apply submitSchema_lat | by apply submitSchema_lon | by apply submitSchema_nonce].
Qed.

(** *** The three paths of a valid payload *)

Section ValidPayload.

Context (is_uuid : string -> bool) (env : Env) (input : json) (data : SubmitData)
        (o : Obs) (store : gmap string Entry.t).
Hypothesis Hvalid : submitSchema is_uuid input = Some data.

(** A live record for the key is served as it is: nothing is sent, and
    the store is left alone. *)
Lemma POST_hit e :
  live (now_check o) (store !! getIdempotencyKey (now_key o) data) = Some e ->
  exists w,
    run (POST is_uuid env (post input) o) store =
      (Ret {| http_status := 200; body := Entry.response e |}, w) /\
    fetches (trace w) = [] /\
    recentSubmissions w = store.
Proof.
  intros Hl. destruct (run_POST is_uuid env (post input) o store) as (r & w & Hrun & HH).
  inversion HH; simplify_eq/=. eauto.
Qed.

(** Without a live record the payload is dispatched; the response and the
    store depend on the result of the dispatch. *)
Lemma POST_miss :
  live (now_check o) (store !! getIdempotencyKey (now_key o) data) = None ->
  exists res evs w,
    Dispatch env o data (randomUUID o) res evs /\
    run (POST is_uuid env (post input) o) store =
      (Ret (if EmailResult.success res
            then {| http_status := 200;
                    body := success_response (EmailResult.reference res) |}
            else server_error), w) /\
    fetches (trace w) = fetches evs /\
    recentSubmissions w =
      (if EmailResult.success res
       then after_write o (getIdempotencyKey (now_key o) data)
               (success_response (EmailResult.reference res)) store
       else store).
Proof.
  intros Hl. destruct (run_POST is_uuid env (post input) o store) as (r & w & Hrun & HH).
  inversion HH; simplify_eq/=.
  - exists res, evs. eexists. split; [done |]. rewrite H3. split; [done |].
    split; [| done]. simpl. rewrite fetches_app. simpl. by rewrite app_nil_r.
  - exists res, evs. eexists. split; [done |]. rewrite H3. split; [done |].
    split; [| done]. simpl. rewrite fetches_app. simpl. by rewrite app_nil_r.
Qed.

End ValidPayload.

(** *** The dispatcher *)

Lemma transport_fails_reply f :
  transport_fails f = true -> exists msg, transport_reply f = inl msg.
Proof.
  destruct f as [reason | r]; simpl; [eauto |]. intros ->. eauto.
Qed.

Lemma Dispatch_success env o data cid res evs :
  Dispatch env o data cid res evs ->
  EmailResult.success res = true ->
  exists key payload id,
    api_key env = Some key /\
    emailPayload env (now_report o) data cid = Some payload /\
    transport_reply (fetched o) = inr id /\
    res = {| EmailResult.success := true; EmailResult.reference := id;
             EmailResult.error := None |} /\
    evs = [Fetch key payload; Log cid info "Email sent successfully" None].
Proof. destruct 1; simpl; intros ?; simplify_eq; eauto 10. Qed.

Lemma Dispatch_fetched env o data cid res evs :
  Dispatch env o data cid res evs ->
  fetches evs <> [] ->
  exists key payload,
    api_key env = Some key /\
    emailPayload env (now_report o) data cid = Some payload /\
    fetches evs = [payload].
Proof. destruct 1; simpl; intros ?; simplify_eq; eauto 10. Qed.

Lemma valid_clock_TimeClip now :
  valid_clock now = true -> JS.TimeClip (inject_Z now) = Some now.
Proof.
  unfold valid_clock, JS.TimeClip, JS.leb, Qle_bool. simpl.
  rewrite !Z.mul_1_r. intros ->. by rewrite Z.quot_1_r.
Qed.

Lemma emailPayload_is_Some env now data cid :
  is_Some (emailPayload env now data cid) <-> is_Some (JS.TimeClip (report_time now data)).
Proof.
  unfold emailPayload, JS.Date_toISOString.
  destruct (JS.TimeClip (report_time now data)); simpl; split; intros [? ?]; by eauto.
Qed.

(** A payload whose report could be rendered once can be rendered again at
    any valid clock reading, under any correlation id. *)
Lemma emailPayload_again env now now' data cid cid' :
  is_Some (emailPayload env now data cid) ->
  valid_clock now' = true ->
  is_Some (emailPayload env now' data cid').
Proof.
  rewrite !emailPayload_is_Some. intros H Hc. unfold report_time in *.
  destruct (timestamp data) as [t|]; [destruct (JS.truthy_number t) |];
    first [done | rewrite valid_clock_TimeClip; eauto].
Qed.


(** When the transport was called and the call failed, the response is the
    500 [server_error] and the store is as it was. *)
Lemma POST_transport_failure is_uuid env request o store r w :
  run (POST is_uuid env request o) store = (Ret r, w) ->
  fetches (trace w) <> [] ->
  transport_fails (fetched o) = true ->
  r = server_error /\ recentSubmissions w = store.
Proof.
  intros Hrun Hf [msg Hmsg]%transport_fails_reply.
  apply Handled_of_run in Hrun. inversion Hrun; simplify_eq/=; try done.
  destruct (Dispatch_success _ _ _ _ _ _ H2 H3) as (? & ? & ? & ? & ? & ? & ?).
  congruence.
Qed.



Lemma submitSchema_accuracy is_uuid fields v :
  assoc "accuracy" fields = Some v ->
  z.number v = None ->
  submitSchema is_uuid (JObj fields) = None.
Proof.
  intros Hf Hv. unfold submitSchema. simpl. rewrite Hf.
  destruct (z.required _ (assoc "lat" _)); [| done].
  destruct (z.required _ (assoc "lon" _)); [| done].
  simpl. by rewrite Hv.
Qed.

Lemma submitSchema_add_accuracy is_uuid fields data a :
  submitSchema is_uuid (JObj fields) = Some data ->
  assoc "accuracy" fields = None ->
  submitSchema is_uuid (JObj (("accuracy", JNum a) :: fields)) =
    Some (with_accuracy (Some a) data).
Proof.
  unfold submitSchema. simpl. intros H Hf. rewrite Hf in H.
  destruct (z.required _ (assoc "lat" _)); [| done].
  destruct (z.required _ (assoc "lon" _)); [| done].
  simpl in *.
  destruct (z.optional _ (assoc "timestamp" _)); [| done].
  destruct (z.required _ (assoc "client_nonce" _)); [| done].
  destruct (z.optional _ (assoc "message" _)); [| done].
  destruct (z.optional _ (assoc "photoBase64" _)); [| done].
  simpl in *. by simplify_eq.
Qed.

(** C2 (amended). The validator requires the accuracy, when present, to be a
    number, of either sign: adding a numeric accuracy, negative or not, to a
    valid payload gives a valid payload that carries it, and adding an
    accuracy that is not a number gives a payload that is answered with HTTP
    400 [bad_request] without reaching the deduplicator or the dispatcher. *)
Theorem C2_accuracy_is_any_number is_uuid env fields data o store v a :
  submitSchema is_uuid (JObj fields) = Some data ->
  assoc "accuracy" fields = None ->
  z.number v = None ->
  submitSchema is_uuid (JObj (("accuracy", JNum a) :: fields)) =
    Some (with_accuracy (Some a) data) /\
  exists w,
    run (POST is_uuid env (post (JObj (("accuracy", v) :: fields))) o) store =
      (Ret {| http_status := 400;
              body := {| Response.status := "error";
                         Response.reference := None;
                         Response.code := Some "bad_request";
                         Response.message := Some "Invalid request data" |} |}, w) /\
    fetches (trace w) = [] /\
    recentSubmissions w = store.
Proof.
  intros Hv Hf Hn. split; [by apply submitSchema_add_accuracy |].
  apply POST_invalid. by eapply submitSchema_accuracy.
Qed.


(** C6. For a valid payload that is not a duplicate, when the transport API
    key is absent from the configuration the dispatch fails before any call
    of the transport: the response is HTTP 500 [server_error], nothing is
    sent and nothing is stored; and the response is the one that any run
    gets in which the transport was called and failed. *)
Theorem C6_missing_api_key_is_server_error is_uuid env input data o store :
  submitSchema is_uuid input = Some data ->
  live (now_check o) (store !! getIdempotencyKey (now_key o) data) = None ->
  RESEND_API_KEY env = None ->
  exists w,
    run (POST is_uuid env (post input) o) store =
      (Ret {| http_status := 500;
              body := {| Response.status := "error";
                         Response.reference := None;
                         Response.code := Some "server_error";
                         Response.message := Some "Internal server error" |} |}, w) /\
    fetches (trace w) = [] /\
    recentSubmissions w = store /\
    forall env' request' o' store' r' w',
      run (POST is_uuid env' request' o') store' = (Ret r', w') ->
      fetches (trace w') <> [] ->
      transport_fails (fetched o') = true ->
      r' = {| http_status := 500;
              body := {| Response.status := "error";
                         Response.reference := None;
                         Response.code := Some "server_error";
                         Response.message := Some "Internal server error" |} |}.
Proof.
  intros Hv Hl Hk.
  destruct (POST_miss is_uuid env input data o store Hv Hl)
    as (res & evs & w & Hd & Hrun & Hf & Hs).
  assert (api_key env = None) as Hk' by (unfold api_key; by rewrite Hk).
  inversion Hd; simplify_eq/=.
  exists w. split; [done |]. split; [done |]. split; [done |].
  intros env' request' o' store' r' w' Hrun' Hf' Hfail.
  by destruct (POST_transport_failure _ _ _ _ _ _ _ Hrun' Hf' Hfail).
Qed.

(** *** The idempotency store *)

(** The key is made of its parts. *)
Lemma key_parts_key now now' d d' :
  key_parts now' d' = key_parts now d ->
  getIdempotencyKey now' d' = getIdempotencyKey now d.
Proof. unfold key_parts, getIdempotencyKey. intros [= -> -> -> ->]. done. Qed.

(** For one payload the fingerprint decides the key: only the minute bucket
    can differ. *)
Lemma fingerprint_key_same now now' d :
  fingerprint now' d = fingerprint now d ->
  getIdempotencyKey now' d = getIdempotencyKey now d.
Proof. unfold fingerprint, getIdempotencyKey. intros [= ->]. done. Qed.

(** The record just written is found under its key unless the clean-up ran
    more than five minutes after the write. *)
Lemma after_write_lookup o key response store :
  now_sweep o - 300000 <= now_write o ->
  after_write o key response store !! key =
    Some {| Entry.timestamp := now_write o; Entry.response := response |}.
Proof.
  intros Hle. unfold after_write, sweep.
  destruct (JS.ltb (random o) 0.01); [| by rewrite lookup_insert_eq].
  apply map_lookup_filter_Some. split; [by rewrite lookup_insert_eq |]. simpl. lia.
Qed.

(** Whether the clean-up ran or not, the key holds the record just written
    or nothing. *)
Lemma after_write_lookup_inv o key response store e :
  after_write o key response store !! key = Some e ->
  e = {| Entry.timestamp := now_write o; Entry.response := response |}.
Proof.
  unfold after_write, sweep.
  destruct (JS.ltb (random o) 0.01).
  - intros [H _]%map_lookup_filter_Some. rewrite lookup_insert_eq in H. by simplify_eq.
  - rewrite lookup_insert_eq. by intros [= <-].
Qed.

(** A run that called the transport and answered 200 wrote its response
    under the key of its payload. *)
Lemma POST_dispatched is_uuid env input data o store r w :
  submitSchema is_uuid input = Some data ->
  run (POST is_uuid env (post input) o) store = (Ret r, w) ->
  fetches (trace w) <> [] ->
  http_status r = 200 ->
  exists key payload,
    api_key env = Some key /\
    emailPayload env (now_report o) data (randomUUID o) = Some payload /\
    fetches (trace w) = [payload] /\
    recentSubmissions w =
      after_write o (getIdempotencyKey (now_key o) data) (body r) store.
Proof.
  intros Hv Hrun Hf Hs.
  apply Handled_of_run in Hrun. inversion Hrun; simplify_eq/=; try done.
  destruct (Dispatch_success _ _ _ _ _ _ H2 H3) as (k & p & id & ? & ? & ? & -> & ->).
  exists k, p. done.
Qed.

(** A run does not disturb a record that is live at its clock readings:
    a request under the same key is served from it, a request under another
    key writes elsewhere, and the clean-up spares it. *)
Lemma POST_keeps_live_record is_uuid env request o store r w k e :
  store !! k = Some e ->
  now_check o - Entry.timestamp e < 300000 ->
  now_sweep o - 300000 <= Entry.timestamp e ->
  run (POST is_uuid env request o) store = (Ret r, w) ->
  recentSubmissions w !! k = Some e.
Proof.
  intros Hk Hcheck Hsweep Hrun.
  apply Handled_of_run in Hrun. inversion Hrun; simplify_eq/=; try done.
  destruct (decide (getIdempotencyKey (now_key o) data = k)) as [<-|Hne].
  { rewrite Hk in H1. simpl in H1.
    by destruct (Z.ltb_spec (now_check o - Entry.timestamp e) 300000); [| lia]. }
  unfold after_write, sweep.
  destruct (JS.ltb (random o) 0.01).
  - apply map_lookup_filter_Some. split; [by rewrite lookup_insert_ne |]. simpl. lia.
  - by rewrite lookup_insert_ne.
Qed.

(** C3 (amended). Two valid submissions with the same idempotency key, as
    the handler computes it (from [Math.round] of the floating-point
    products [lat * 10000] and [lon * 10000], the minute bucket and the
    client nonce): when the first one was dispatched successfully and the
    second one is checked less than five minutes after the first one's
    record was written, the second one gets the very response of the first,
    and the transport is called once in all. *)
Theorem C3_duplicate_within_window_is_served_from_cache
    is_uuid env env' input input' data data' o o' store r w :
  submitSchema is_uuid input = Some data ->
  submitSchema is_uuid input' = Some data' ->
  getIdempotencyKey (now_key o') data' = getIdempotencyKey (now_key o) data ->
  run (POST is_uuid env (post input) o) store = (Ret r, w) ->
  fetches (trace w) <> [] ->
  http_status r = 200 ->
  now_sweep o <= now_check o' ->
  now_check o' - now_write o < 300000 ->
  exists w',
    run (POST is_uuid env' (post input') o') (recentSubmissions w) = (Ret r, w') /\
    fetches (trace w') = [] /\
    (length (fetches (trace w) ++ fetches (trace w')) <= 1)%nat.
Proof.
  intros Hv Hv' Hfp Hrun Hf Hs Hord Hwin.
  destruct (POST_dispatched _ _ _ _ _ _ _ _ Hv Hrun Hf Hs) as (k & p & _ & _ & Hp & Hst).
  destruct (POST_hit is_uuid env' input' data' o' (recentSubmissions w) Hv'
              {| Entry.timestamp := now_write o; Entry.response := body r |})
    as (w' & Hrun' & Hf' & _).
  { rewrite Hfp, Hst, after_write_lookup by lia. simpl.
    by destruct (Z.ltb_spec (now_check o' - now_write o) 300000); [| lia]. }
  exists w'. rewrite Hrun', Hf', Hp. simpl. split; [| done].
  apply Handled_of_run in Hrun. inversion Hrun; simplify_eq/=; done.
Qed.

(** C5. A valid submission that was dispatched successfully and is repeated
    under the same fingerprint five minutes or more after its record was
    written: the record is not served, the transport is called afresh, and
    the response is made from the transport's new answer. *)
Theorem C5_repeat_after_window_is_dispatched_afresh
    is_uuid env input data o o' store r w :
  submitSchema is_uuid input = Some data ->
  run (POST is_uuid env (post input) o) store = (Ret r, w) ->
  fetches (trace w) <> [] ->
  http_status r = 200 ->
  fingerprint (now_key o') data = fingerprint (now_key o) data ->
  300000 <= now_check o' - now_write o ->
  valid_clock (now_report o') = true ->
  exists r' w' payload,
    run (POST is_uuid env (post input) o') (recentSubmissions w) = (Ret r', w') /\
    fetches (trace w') = [payload] /\
    r' = match transport_reply (fetched o') with
         | inr id => {| http_status := 200; body := success_response id |}
         | inl _ => server_error
         end.
Proof.
  intros Hv Hrun Hf Hs Hfp Hwin Hclock.
  destruct (POST_dispatched _ _ _ _ _ _ _ _ Hv Hrun Hf Hs) as (k & p & Hk & Hp & _ & Hst).
  apply fingerprint_key_same in Hfp.
  destruct (POST_miss is_uuid env input data o' (recentSubmissions w) Hv)
    as (res & evs & w' & Hd & Hrun' & Hf' & _).
  { rewrite Hfp, Hst.
    destruct (after_write o _ _ store !! _) as [e|] eqn:E; [| done].
    apply after_write_lookup_inv in E as ->. simpl.
    by destruct (Z.ltb_spec (now_check o' - now_write o) 300000); [lia |]. }
  assert (is_Some (emailPayload env (now_report o') data (randomUUID o'))) as [p' Hp'].
  { eapply emailPayload_again; [| done]. by rewrite Hp. }
  exists (if EmailResult.success res
          then {| http_status := 200;
                  body := success_response (EmailResult.reference res) |}
          else server_error), w', p'.
  split; [done |]. rewrite Hf'.
  destruct Hd; simplify_eq/=; rewrite ?H1, ?H2; done.
Qed.

Lemma after_write_cached_success o key id store :
  cached_success store ->
  cached_success (after_write o key (success_response id) store).
Proof.
  intros Hs k e. unfold after_write, sweep.
  destruct (JS.ltb (random o) 0.01).
  - intros [H _]%map_lookup_filter_Some. revert H.
    destruct (decide (key = k)) as [->|Hne].
    + rewrite lookup_insert_eq. intros [= <-]. simpl. eauto.
    + rewrite lookup_insert_ne by done. apply Hs.
  - destruct (decide (key = k)) as [->|Hne].
    + rewrite lookup_insert_eq. intros [= <-]. simpl. eauto.
    + rewrite lookup_insert_ne by done. apply Hs.
Qed.

Lemma POST_cached_success is_uuid env request o store r w :
  cached_success store ->
  run (POST is_uuid env request o) store = (Ret r, w) ->
  cached_success (recentSubmissions w).
Proof.
  intros Hs Hrun. apply Handled_of_run in Hrun.
  inversion Hrun; simplify_eq/=; try done.
  by apply after_write_cached_success.
Qed.

Lemma reachable_cached_success is_uuid store :
  reachable is_uuid store -> cached_success store.
Proof.
  induction 1 as [| env request o store r w _ IH Hrun].
  - intros k e. by rewrite lookup_empty.
  - by eapply POST_cached_success.
Qed.

(** C10. Whatever the request, and whatever the requests served before it,
    the handler returns HTTP 200 with a body of status ["success"], or HTTP
    400 with code ["bad_request"], or HTTP 500 with code ["server_error"]:
    the code ["out_of_bounds"] is never returned. *)
Theorem C10_no_out_of_bounds_response is_uuid env request o store :
  reachable is_uuid store ->
  exists r w,
    run (POST is_uuid env request o) store = (Ret r, w) /\
    Response.code (body r) <> Some "out_of_bounds" /\
    ((exists id,
        r = {| http_status := 200;
               body := {| Response.status := "success"; Response.reference := id;
                          Response.code := None; Response.message := None |} |}) \/
     r = {| http_status := 400;
            body := {| Response.status := "error"; Response.reference := None;
                       Response.code := Some "bad_request";
                       Response.message := Some "Invalid request data" |} |} \/
     r = {| http_status := 500;
            body := {| Response.status := "error"; Response.reference := None;
                       Response.code := Some "server_error";
                       Response.message := Some "Internal server error" |} |}).
Proof.
  intros Hs%reachable_cached_success.
  destruct (run_POST is_uuid env request o store) as (r & w & Hrun & HH).
  exists r, w. split; [done |].
  inversion HH; simplify_eq/=; try (split; [done | by eauto]).
  match goal with
  | H : live _ _ = Some _ |- _ => unfold live in H
  end.
  destruct (store !! _) as [e'|] eqn:E; [| done].
  destruct (_ <? _); [| done]. simplify_eq.
  destruct (Hs _ _ E) as [id ->]. split; [done | by eauto].
Qed.

(** *** The geographic gate *)

Lemma Qle_bool_true (x y : Q) : Qle_bool x y = true <-> (x <= y)%Q.
Proof. apply Qle_bool_iff. Qed.

Lemma isInSanFrancisco_iff (lat lon : Q) :
  isInSanFrancisco lat lon = true <->
  (south SF_BOUNDS <= lat <= north SF_BOUNDS)%Q /\
  (west SF_BOUNDS <= lon <= east SF_BOUNDS)%Q.
Proof.
  unfold isInSanFrancisco, JS.leb.
  rewrite !andb_true_iff, !Qle_bool_true. tauto.
Qed.

(** A valid payload is never answered with HTTP 400. *)
Lemma POST_valid_status is_uuid env input data o store :
  submitSchema is_uuid input = Some data ->
  exists r w,
    run (POST is_uuid env (post input) o) store = (Ret r, w) /\
    (http_status r = 200 \/ http_status r = 500).
Proof.
  intros Hv. destruct (run_POST is_uuid env (post input) o store) as (r & w & Hrun & HH).
  exists r, w. split; [done |]. inversion HH; simplify_eq/=; eauto.
Qed.

(** C9 (amended). [isInSanFrancisco] accepts a coordinate pair exactly when
    the latitude is within [south, north] and the longitude within
    [west, east] of [SF_BOUNDS]; the handler has no step that consults it:
    every valid payload, inside the rectangle or outside, is answered with
    HTTP 200 or HTTP 500, never with HTTP 400. *)
Theorem C9_gate_is_a_rectangle_test_not_applied
    is_uuid env input data o store (lat0 lon0 : Q) :
  submitSchema is_uuid input = Some data ->
  (isInSanFrancisco lat0 lon0 = true <->
   (south SF_BOUNDS <= lat0 <= north SF_BOUNDS)%Q /\
   (west SF_BOUNDS <= lon0 <= east SF_BOUNDS)%Q) /\
  exists r w,
    run (POST is_uuid env (post input) o) store = (Ret r, w) /\
    (http_status r = 200 \/ http_status r = 500).
Proof.
  intros Hv. split; [apply isInSanFrancisco_iff | by eapply POST_valid_status].
Qed.

(** *** Strings *)

Lemma append_cons (c : ascii) (s t : string) : String c s +:+ t = String c (s +:+ t).
Proof. reflexivity. Qed.

Lemma append_eq_empty (s t : string) : s +:+ t = "" -> t = "".
Proof. destruct s; [done | by rewrite append_cons]. Qed.

Lemma length_append (a b : string) :
  String.length (a +:+ b) = (String.length a + String.length b)%nat.
Proof.
  induction a as [|x a IH]; [done |]. rewrite append_cons. simpl. by rewrite IH.
Qed.

Lemma pad_digits_length (w : nat) (n : Z) : String.length (JS.pad_digits w n) = w.
Proof.
  revert n. induction w as [|w IH]; intros n; simpl; [done |].
  rewrite length_append, IH. simpl. lia.
Qed.

(** [trimEnd] leaves what precedes a part that does not vanish. *)
Lemma trimEnd_app (s t : string) :
  JS.trimEnd t <> "" -> JS.trimEnd (s +:+ t) = s +:+ JS.trimEnd t.
Proof.
  intros Ht. induction s as [|c s IH]; [done |].
  rewrite !append_cons. simpl. rewrite IH.
  destruct (s +:+ JS.trimEnd t) eqn:E; [| done].
  by apply append_eq_empty in E.
Qed.

Lemma trimEnd_app_ne (s t : string) :
  JS.trimEnd t <> "" -> JS.trimEnd (s +:+ t) <> "".
Proof.
  intros Ht. rewrite trimEnd_app by done. by intros E%append_eq_empty.
Qed.

Lemma trimEnd_all_space (t : string) : all_space t = true -> JS.trimEnd t = "".
Proof.
  induction t as [|c t IH]; simpl; [done |].
  intros [Hc Ht]%andb_true_iff. by rewrite IH, Hc.
Qed.

(** [trimEnd] drops a tail of white space. *)
Lemma trimEnd_spaces (s t : string) :
  all_space t = true -> JS.trimEnd (s +:+ t) = JS.trimEnd s.
Proof.
  intros Ht. induction s as [|c s IH]; [by apply trimEnd_all_space |].
  rewrite append_cons. simpl. by rewrite IH.
Qed.

(** The text of the report: trimming the template literal removes its
    first line break and its closing line break and indentation, nothing
    else. *)
Lemma trim_text_template when data cid :
  JS.trim (text_template when data cid) = report_text when data cid.
Proof.
  unfold JS.trim, text_template.
  assert (JS.trimStart (JS.LF +:+ report_text when data cid +:+ JS.LF +:+ "      ") =
          report_text when data cid +:+ JS.LF +:+ "      ") as -> by reflexivity.
  rewrite trimEnd_spaces by reflexivity.
  unfold report_text.
  repeat (rewrite trimEnd_app by (repeat (apply trimEnd_app_ne); done)).
  reflexivity.
Qed.

(** [toFixed(f)] renders exactly [f] digits after the point. *)
Lemma toFixed_decimals (f : nat) (x : Q) :
  f <> O ->
  exists int frac,
    JS.toFixed f x = int +:+ "." +:+ frac /\ String.length frac = f.
Proof.
  intros Hf. unfold JS.toFixed, JS.toFixed_abs.
  destruct f as [|f]; [done |].
  destruct (JS.ltb x 0).
  - eexists ("-" +:+ _), _. split; [reflexivity | apply pad_digits_length].
  - eexists _, _. split; [reflexivity | apply pad_digits_length].
Qed.

(** *** The report *)

(** What is posted during the run of a valid payload is the payload
    that [emailPayload] builds from it. *)
Lemma POST_fetches_payload is_uuid env input data o store r w payload :
  submitSchema is_uuid input = Some data ->
  run (POST is_uuid env (post input) o) store = (Ret r, w) ->
  payload ∈ fetches (trace w) ->
  emailPayload env (now_report o) data (randomUUID o) = Some payload.
Proof.
  intros Hv Hrun Hin.
  assert (fetches (trace w) <> []) as Hne by (intros E; rewrite E in Hin; inversion Hin).
  apply Handled_of_run in Hrun. inversion Hrun; simplify_eq/=; try done.
  - destruct (Dispatch_fetched env o data (randomUUID o) res evs) as (k & p & _ & Hp & Hf);
      [done | |].
    + intros E. apply Hne. by rewrite fetches_app, E.
    + rewrite fetches_app, Hf in Hin. simpl in Hin.
      apply list_elem_of_singleton in Hin as ->. done.
  - destruct (Dispatch_fetched env o data (randomUUID o) res evs) as (k & p & _ & Hp & Hf);
      [done | |].
    + intros E. apply Hne. by rewrite fetches_app, E.
    + rewrite fetches_app, Hf in Hin. simpl in Hin.
      apply list_elem_of_singleton in Hin as ->. done.
Qed.

Lemma emailPayload_text env now data cid payload :
  emailPayload env now data cid = Some payload ->
  exists when,
    JS.Date_toISOString (report_time now data) = Some when /\
    Email.text payload = report_text when data cid /\
    Email.attachments payload = attachments_of data.
Proof.
  unfold emailPayload.
  destruct (JS.Date_toISOString (report_time now data)) as [when|]; simpl; [| done].
  intros [= <-]. exists when. simpl. by rewrite trim_text_template.
Qed.

(** C7 (amended). For every validated payload, what is posted to the
    transport has as its text the template below: the ISO-8601 rendering of
    the report time (the payload's timestamp when it is supplied and not
    zero, the server's clock otherwise; that time is then a valid date), the
    coordinates with six digits after the point, an accuracy note (the
    rounded accuracy as the template literal renders it) exactly when the
    accuracy is supplied and not zero, the client nonce as Report
    ID, the correlation id, and the user message, or ["No message provided."]
    when the message is absent or empty. *)
Theorem C7_report_text_template is_uuid env input data o store r w payload :
  submitSchema is_uuid input = Some data ->
  run (POST is_uuid env (post input) o) store = (Ret r, w) ->
  payload ∈ fetches (trace w) ->
  exists when,
    JS.Date_toISOString
      (match timestamp data with
       | Some t => if Qeq_bool t 0 then inject_Z (now_report o) else t
       | None => inject_Z (now_report o)
       end) = Some when /\
    Email.text payload =
      "Source: QR-Driven Garbage Reporting Webapp" +:+ JS.LF +:+
      "When: " +:+ when +:+ JS.LF +:+
      "Where: " +:+ (JS.toFixed 6 (lat data) +:+ "," +:+ JS.toFixed 6 (lon data)) +:+ " " +:+
        match accuracy data with
        | Some a => if Qeq_bool a 0 then ""
                    else "(±" +:+ JS.Number_toString (JS.Math_round a) +:+ "m)"
        | None => ""
        end +:+ JS.LF +:+
      "Report ID: " +:+ client_nonce data +:+ JS.LF +:+
      "Correlation ID: " +:+ randomUUID o +:+ JS.LF +:+
      JS.LF +:+
      "---" +:+ JS.LF +:+
      "User Message:" +:+ JS.LF +:+
        match message data with
        | Some "" | None => "No message provided."
        | Some m => m
        end +:+ JS.LF +:+
      "---" /\
    (exists int frac, JS.toFixed 6 (lat data) = int +:+ "." +:+ frac /\
                      String.length frac = 6%nat) /\
    (exists int frac, JS.toFixed 6 (lon data) = int +:+ "." +:+ frac /\
                      String.length frac = 6%nat).
Proof.
  intros Hv Hrun Hin.
  pose proof (POST_fetches_payload _ _ _ _ _ _ _ _ _ Hv Hrun Hin) as Hp.
  apply emailPayload_text in Hp as (when & Hw & Ht & _).
  exists when. split; [| split; [| split; by apply toFixed_decimals]].
  - rewrite <- Hw. unfold report_time, JS.truthy_number.
    destruct (timestamp data) as [t|]; [| done]. by destruct (Qeq_bool t 0).
  - rewrite Ht. unfold report_text, where_line, accuracy_note, or_default, JS.truthy_number.
    destruct (accuracy data) as [a|]; [destruct (Qeq_bool a 0) |];
      destruct (message data) as [[|c m]|]; reflexivity.
Qed.

(** *** The attachment *)

Lemma split_no_comma (s : string) : no_comma s = true -> JS.split "," s = [s].
Proof.
  induction s as [|c s IH]; [done |]. simpl.
  intros [Hc Hs]%andb_true_iff. apply negb_true_iff in Hc. by rewrite Hc, IH.
Qed.

Lemma split_data_url (prefix rest : string) :
  no_comma prefix = true ->
  JS.split "," (prefix +:+ "," +:+ rest) = prefix :: JS.split "," rest.
Proof.
  induction prefix as [|c p IH]; [done |]. rewrite append_cons. simpl.
  intros [Hc Hs]%andb_true_iff. apply negb_true_iff in Hc. by rewrite Hc, IH.
Qed.

(** C8 (amended). For every validated payload, what is posted to the
    transport has exactly one attachment if and only if a photo string was
    supplied and is not empty, and no attachment otherwise; for a photo in
    data-URL form (a prefix, a comma, the base64 payload) the attachment is
    [photo.jpg] with the base64 payload, the prefix and the comma removed,
    as its content. *)
Theorem C8_attachment_iff_nonempty_photo is_uuid env input data o store r w payload :
  submitSchema is_uuid input = Some data ->
  run (POST is_uuid env (post input) o) store = (Ret r, w) ->
  payload ∈ fetches (trace w) ->
  (length (Email.attachments payload) = 1%nat <->
   exists photo, photoBase64 data = Some photo /\ photo <> "") /\
  (Email.attachments payload = [] <->
   photoBase64 data = None \/ photoBase64 data = Some "") /\
  (forall prefix base64,
     photoBase64 data = Some (prefix +:+ "," +:+ base64) ->
     no_comma prefix = true ->
     no_comma base64 = true ->
     Email.attachments payload =
       [ {| Email.filename := "photo.jpg"; Email.content := Some base64 |} ]).
Proof.
  intros Hv Hrun Hin.
  pose proof (POST_fetches_payload _ _ _ _ _ _ _ _ _ Hv Hrun Hin) as Hp.
  apply emailPayload_text in Hp as (when & _ & _ & ->).
  unfold attachments_of. split; [| split].
  - destruct (photoBase64 data) as [[|c p]|]; simpl; split; try done.
    + by intros (? & [= <-] & ?).
    + intros _. eexists. done.
    + by intros (? & ? & _).
  - destruct (photoBase64 data) as [[|c p]|]; simpl; split; try done; eauto.
    by intros [|].
  - intros prefix base64 -> Hp Hb.
    assert (JS.truthy_string (prefix +:+ "," +:+ base64) = true) as ->.
    { destruct prefix; done. }
    rewrite split_data_url, split_no_comma by done. done.
Qed.

(* ===================================================================== *)
(** ** The properties on concrete runs                                   *)
(* ===================================================================== *)

(** The concrete scenario of the specification: a healthy transport that
    answers [{id: "email_123"}]. *)
Example scenario_success : first_run.1 = Ret email_123.
Proof. vm_compute. reflexivity. Qed.

(** The concrete scenario with a transport that answers 503. *)
Example scenario_503 :
  (run (POST uuid_shape Sample.env Sample.request
          (Sample.at_time t0 Sample.unavailable)) ∅).1 = Ret server_error.
Proof. vm_compute. reflexivity. Qed.

Example iso_sample :
  JS.Date_toISOString (inject_Z t0) = Some "2024-01-08T00:06:35.643Z".
Proof. vm_compute. reflexivity. Qed.

Lemma C1_witness :
  exists w,
    run (POST uuid_shape Sample.env (post lat_200) (Sample.at_time t0 Sample.healthy)) ∅ =
      (Ret {| http_status := 400;
              body := {| Response.status := "error";
                         Response.reference := None;
                         Response.code := Some "bad_request";
                         Response.message := Some "Invalid request data" |} |}, w) /\
    fetches (trace w) = [] /\
    recentSubmissions w = ∅.
Proof.
  apply (C1_invalid_payload_is_bad_request uuid_shape Sample.env lat_200
           (Sample.at_time t0 Sample.healthy) ∅).
  left. vm_compute. reflexivity.
Defined.

(** C2 (counterexample). A payload whose accuracy is -5 is validated,
    posted to the transport and answered with HTTP 200. *)
Lemma C2_negative_accuracy_is_accepted :
  json_get "accuracy" negative_accuracy = Some (JNum (-5)) /\
  JS.ltb (-5) 0 = true /\
  (run (POST uuid_shape Sample.env (post negative_accuracy)
          (Sample.at_time t0 Sample.healthy)) ∅).1 = Ret email_123 /\
  length (fetches (trace (run (POST uuid_shape Sample.env (post negative_accuracy)
                                 (Sample.at_time t0 Sample.healthy)) ∅).2)) = 1%nat.
Proof. vm_compute. repeat split; reflexivity. Qed.

Lemma C2_witness :
  submitSchema uuid_shape negative_accuracy =
    Some (with_accuracy (Some (-5)%Q) bare_data) /\
  exists w,
    run (POST uuid_shape Sample.env (post (JObj (("accuracy", JStr "ten") :: sample_bare)))
           (Sample.at_time t0 Sample.healthy)) ∅ =
      (Ret {| http_status := 400;
              body := {| Response.status := "error";
                         Response.reference := None;
                         Response.code := Some "bad_request";
                         Response.message := Some "Invalid request data" |} |}, w) /\
    fetches (trace w) = [] /\
    recentSubmissions w = ∅.
Proof.
  apply (C2_accuracy_is_any_number uuid_shape Sample.env sample_bare bare_data
           (Sample.at_time t0 Sample.healthy) ∅ (JStr "ten") (-5)%Q);
    vm_compute; reflexivity.
Defined.

(** The numbers of the two payloads are the doubles nearest to the decimal
    literals, and the product with 10000 is rounded once more. *)
Example doubles_of_the_literals :
  Qred (JS.to_double 37.74935) = double_37_74935 /\
  Qred (JS.to_double 37.7493) = double_37_7493 /\
  Qred (JS.to_double (-122.4194)) = double_m122_4194 /\
  Qred (JS.to_double 0.1) = (3602879701896397 # 36028797018963968) /\
  Qred (JS.mul double_37_74935 10000) = (754987 # 2) /\
  JS.ltb double_37_74935 37.74935 = true.
Proof. vm_compute. repeat split; reflexivity. Qed.

(** The key follows the arithmetic of doubles: the product of the double
    of 37.74935 and 10000 is the double 377493.5, which [Math.round] takes
    to 377494, although the number itself is below 37.74935. *)
Example key_at_a_half_way_product :
  getIdempotencyKey t0 tie_data =
    "37.7494,-122.4194,28411206,a0d4b216-f4cf-4219-822b-f83e49a6cccb" /\
  getIdempotencyKey (t0 + 10000) flat_data =
    "37.7493,-122.4194,28411206,a0d4b216-f4cf-4219-822b-f83e49a6cccb".
Proof. vm_compute. split; reflexivity. Qed.

(** A number in a template literal: the shortest digits that read back. *)
Example rounded_accuracy_rendered :
  JS.Number_toString (JS.Math_round 9.6) = "10" /\
  JS.Number_toString (JS.Math_round (-0.3)) = "0" /\
  JS.Number_toString (JS.Math_round (inject_Z (2 ^ 60))) = "1152921504606847000" /\
  JS.Number_toString (JS.Math_round (inject_Z (10 ^ 21))) = "1e+21" /\
  JS.Number_toString (JS.Math_round (inject_Z (2 ^ 70))) = "1.1805916207174113e+21".
Proof. vm_compute. repeat split; reflexivity. Qed.

(** C3 (counterexample). The payloads with the latitudes 37.74935 and
    37.7493 (and the same longitude and nonce), submitted ten seconds apart
    in the same minute, have the same fingerprint: both latitudes round to
    37.7493 at four decimal places.  The first is dispatched successfully,
    and the second is posted to the transport as well: two calls in all. *)
Lemma C3_same_rounding_is_dispatched_twice :
  submitSchema uuid_shape tie_payload = Some tie_data /\
  submitSchema uuid_shape flat_payload = Some flat_data /\
  fingerprint (now_key ten_seconds_later) flat_data = fingerprint t0 tie_data /\
  tie_run.1 = Ret email_123 /\
  length (fetches (trace tie_run.2)) = 1%nat /\
  now_check ten_seconds_later - t0 = 10000 /\
  length (fetches (trace (run (POST uuid_shape Sample.env (post flat_payload)
                                 ten_seconds_later)
                              (recentSubmissions tie_run.2)).2)) = 1%nat.
Proof. vm_compute. repeat split; reflexivity. Qed.

Lemma C3_witness :
  exists w',
    run (POST uuid_shape Sample.env Sample.request ten_seconds_later)
        (recentSubmissions first_run.2) = (Ret email_123, w') /\
    fetches (trace w') = [] /\
    (length (fetches (trace first_run.2) ++ fetches (trace w')) <= 1)%nat.
Proof.
  apply (C3_duplicate_within_window_is_served_from_cache uuid_shape Sample.env Sample.env
           Sample.payload Sample.payload Sample.data Sample.data
           (Sample.at_time t0 Sample.healthy) ten_seconds_later ∅ email_123 first_run.2);
    try (vm_compute; reflexivity); try (simpl; lia).
  vm_compute. discriminate.
Defined.


Lemma C5_witness :
  exists r' w' payload,
    run (POST uuid_shape Sample.env Sample.request five_minutes_later)
        (recentSubmissions first_run.2) = (Ret r', w') /\
    fetches (trace w') = [payload] /\
    r' = email_123.
Proof.
  apply (C5_repeat_after_window_is_dispatched_afresh uuid_shape Sample.env
           Sample.payload Sample.data (Sample.at_time t0 Sample.healthy)
           five_minutes_later ∅ email_123 first_run.2);
    try (vm_compute; reflexivity); try (simpl; lia).
  vm_compute. discriminate.
Defined.

Lemma C6_witness :
  exists w,
    run (POST uuid_shape no_key Sample.request (Sample.at_time t0 Sample.healthy)) ∅ =
      (Ret {| http_status := 500;
              body := {| Response.status := "error";
                         Response.reference := None;
                         Response.code := Some "server_error";
                         Response.message := Some "Internal server error" |} |}, w) /\
    fetches (trace w) = [] /\
    recentSubmissions w = ∅.
Proof.
  destruct (C6_missing_api_key_is_server_error uuid_shape no_key Sample.payload Sample.data
              (Sample.at_time t0 Sample.healthy) ∅) as (w & Hrun & Hf & Hs & _);
    [vm_compute; reflexivity .. |].
  exists w. split; [exact Hrun |]. split; [exact Hf | exact Hs].
Defined.

(** C7 (counterexample). A payload that supplies the accuracy 0 is
    reported without an accuracy annotation. *)
Lemma C7_zero_accuracy_is_not_annotated :
  accuracy <$> submitSchema uuid_shape zero_accuracy = Some (Some 0%Q) /\
  Email.text <$> posted (run (POST uuid_shape Sample.env (post zero_accuracy)
                                (Sample.at_time t0 Sample.healthy)) ∅) =
    Some ("Source: QR-Driven Garbage Reporting Webapp" +:+ JS.LF +:+
          "When: 2024-01-08T00:06:35.643Z" +:+ JS.LF +:+
          "Where: 37.774900,-122.419400 " +:+ JS.LF +:+
          "Report ID: a0d4b216-f4cf-4219-822b-f83e49a6cccb" +:+ JS.LF +:+
          "Correlation ID: req-1" +:+ JS.LF +:+
          JS.LF +:+
          "---" +:+ JS.LF +:+
          "User Message:" +:+ JS.LF +:+
          "Boxes behind bus stop" +:+ JS.LF +:+
          "---").
Proof. vm_compute. split; reflexivity. Qed.

Lemma C7_witness :
  Email.text <$> posted first_run =
    Some ("Source: QR-Driven Garbage Reporting Webapp" +:+ JS.LF +:+
          "When: 2024-01-08T00:06:35.643Z" +:+ JS.LF +:+
          "Where: 37.774900,-122.419400 (±10m)" +:+ JS.LF +:+
          "Report ID: a0d4b216-f4cf-4219-822b-f83e49a6cccb" +:+ JS.LF +:+
          "Correlation ID: req-1" +:+ JS.LF +:+
          JS.LF +:+
          "---" +:+ JS.LF +:+
          "User Message:" +:+ JS.LF +:+
          "Boxes behind bus stop" +:+ JS.LF +:+
          "---").
Proof.
  destruct (posted first_run) as [payload|] eqn:E; [| vm_compute in E; discriminate].
  destruct (C7_report_text_template uuid_shape Sample.env Sample.payload Sample.data
              (Sample.at_time t0 Sample.healthy) ∅ email_123 first_run.2 payload)
    as (when & Hw & Ht & _); [vm_compute; reflexivity .. | |].
  - unfold posted in E. destruct (fetches (trace first_run.2)) as [|p l]; [discriminate |].
    injection E as ->. apply list_elem_of_here.
  - simpl. rewrite Ht. vm_compute in Hw. injection Hw as <-. vm_compute. reflexivity.
Defined.

(** C8 (counterexample). A payload that supplies an empty photo string is
    reported without an attachment, and a payload that supplies the photo as
    bare base64, without a data-URL prefix, is reported with an attachment
    that has no content. *)
Lemma C8_empty_photo_is_not_attached :
  photoBase64 <$> submitSchema uuid_shape empty_photo = Some (Some ""%string) /\
  Email.attachments <$> posted (run (POST uuid_shape Sample.env (post empty_photo)
                                       (Sample.at_time t0 Sample.healthy)) ∅) = Some [] /\
  photoBase64 <$> submitSchema uuid_shape bare_photo = Some (Some "/9j/4AAQ"%string) /\
  Email.attachments <$> posted (run (POST uuid_shape Sample.env (post bare_photo)
                                       (Sample.at_time t0 Sample.healthy)) ∅) =
    Some [ {| Email.filename := "photo.jpg"; Email.content := None |} ].
Proof. vm_compute. repeat split; reflexivity. Qed.

Lemma C8_witness :
  Email.attachments <$> posted (run (POST uuid_shape Sample.env (post with_photo)
                                       (Sample.at_time t0 Sample.healthy)) ∅) =
    Some [ {| Email.filename := "photo.jpg"; Email.content := Some "/9j/4AAQ"%string |} ].
Proof.
  set (x := run (POST uuid_shape Sample.env (post with_photo)
                   (Sample.at_time t0 Sample.healthy)) ∅).
  destruct (posted x) as [payload|] eqn:E; [| vm_compute in E; discriminate].
  destruct (C8_attachment_iff_nonempty_photo uuid_shape Sample.env with_photo
              {| lat := 37.7749; lon := -122.4194; accuracy := None; timestamp := None;
                 client_nonce := Sample.nonce;
                 message := Some "Boxes behind bus stop"%string;
                 photoBase64 := Some "data:image/jpeg;base64,/9j/4AAQ"%string |}
              (Sample.at_time t0 Sample.healthy) ∅ email_123 x.2 payload)
    as (_ & _ & H); [vm_compute; reflexivity .. | |].
  - unfold posted in E. destruct (fetches (trace x.2)) as [|p l]; [discriminate |].
    injection E as ->. apply list_elem_of_here.
  - simpl. f_equal.
    apply (H "data:image/jpeg;base64"%string "/9j/4AAQ"%string); reflexivity.
Defined.

(** C9 (counterexample). A valid payload at latitude 0, longitude 0 is
    outside the rectangle, and the handler dispatches it and answers with
    HTTP 200. *)
Lemma C9_outside_payload_is_accepted :
  isInSanFrancisco 0 0 = false /\
  (run (POST uuid_shape Sample.env (post null_island)
          (Sample.at_time t0 Sample.healthy)) ∅).1 = Ret email_123 /\
  length (fetches (trace (run (POST uuid_shape Sample.env (post null_island)
                                 (Sample.at_time t0 Sample.healthy)) ∅).2)) = 1%nat.
Proof. vm_compute. repeat split; reflexivity. Qed.

Lemma C9_witness :
  (isInSanFrancisco 37.7749 (-122.4194) = true <->
   (south SF_BOUNDS <= 37.7749 <= north SF_BOUNDS)%Q /\
   (west SF_BOUNDS <= -122.4194 <= east SF_BOUNDS)%Q) /\
  exists r w,
    run (POST uuid_shape Sample.env (post null_island)
           (Sample.at_time t0 Sample.healthy)) ∅ = (Ret r, w) /\
    (http_status r = 200 \/ http_status r = 500).
Proof.
  apply (C9_gate_is_a_rectangle_test_not_applied uuid_shape Sample.env null_island
           {| lat := 0; lon := 0; accuracy := None; timestamp := None;
              client_nonce := Sample.nonce; message := None; photoBase64 := None |}).
  vm_compute. reflexivity.
Defined.

Lemma C10_witness :
  exists r w,
    run (POST uuid_shape Sample.env (post null_island)
           (Sample.at_time t0 Sample.healthy)) (recentSubmissions first_run.2) = (Ret r, w) /\
    Response.code (body r) <> Some "out_of_bounds"%string /\
    ((exists id,
        r = {| http_status := 200;
               body := {| Response.status := "success"; Response.reference := id;
                          Response.code := None; Response.message := None |} |}) \/
     r = {| http_status := 400;
            body := {| Response.status := "error"; Response.reference := None;
                       Response.code := Some "bad_request"%string;
                       Response.message := Some "Invalid request data"%string |} |} \/
     r = {| http_status := 500;
            body := {| Response.status := "error"; Response.reference := None;
                       Response.code := Some "server_error"%string;
                       Response.message := Some "Internal server error"%string |} |}).
Proof.
  apply (C10_no_out_of_bounds_response uuid_shape Sample.env (post null_island)
           (Sample.at_time t0 Sample.healthy) (recentSubmissions first_run.2)).
  apply (reach_step uuid_shape Sample.env Sample.request (Sample.at_time t0 Sample.healthy)
           ∅ email_123 first_run.2).
  - apply reach_start.
  - vm_compute. reflexivity.
Defined.

(* ===================================================================== *)
(** ** Further properties of the route                                   *)
(* ===================================================================== *)

(** *** Validation *)

Lemma z_required_range lo hi v n :
  z.required (z.max hi (z.min lo z.number)) v = Some n <->
  v = Some (JNum n) /\ (lo <= n)%Q /\ (n <= hi)%Q.
Proof.
  unfold z.required, z.max, z.min, z.number, JS.leb.
  destruct v as [[]|]; try (split; [done | by intros [? _]]).
  destruct (Qle_bool lo n0) eqn:E1; [destruct (Qle_bool n0 hi) eqn:E2 |].
  - apply Qle_bool_iff in E1, E2. split; [by intros [= <-] | by intros [[= <-] _]].
  - split; [done |]. intros [[= <-] [_ H]]. apply Qle_bool_iff in H. congruence.
  - split; [done |]. intros [[= <-] [H _]]. apply Qle_bool_iff in H. congruence.
Qed.

Lemma z_required_uuid p v s :
  z.required (z.uuid p z.string) v = Some s <-> v = Some (JStr s) /\ p s = true.
Proof.
  unfold z.required, z.uuid, z.string.
  destruct v as [[]|]; try (split; [done | by intros [? _]]).
  destruct (p s0) eqn:E; split; try done.
  - by intros [= <-].
  - by intros [[= <-] _].
  - intros [[= <-] ?]. congruence.
Qed.

Lemma z_optional_number v a :
  z.optional z.number v = Some a <-> v = JNum <$> a.
Proof.
  unfold z.optional, z.number.
  destruct v as [[]|], a; simpl; split; try done; by intros [= <-].
Qed.

Lemma z_optional_string v a :
  z.optional z.string v = Some a <-> v = JStr <$> a.
Proof.
  unfold z.optional, z.string.
  destruct v as [[]|], a; simpl; split; try done; by intros [= <-].
Qed.

(** What validation guarantees of the validated data. *)
Lemma submitSchema_fields is_uuid input (d : SubmitData) :
  submitSchema is_uuid input = Some d ->
  exists fields,
    input = JObj fields /\
    assoc "lat" fields = Some (JNum (lat d)) /\
    (-90 <= lat d)%Q /\ (lat d <= 90)%Q /\
    assoc "lon" fields = Some (JNum (lon d)) /\
    (-180 <= lon d)%Q /\ (lon d <= 180)%Q /\
    assoc "accuracy" fields = JNum <$> accuracy d /\
    assoc "timestamp" fields = JNum <$> timestamp d /\
    assoc "client_nonce" fields = Some (JStr (client_nonce d)) /\
    is_uuid (client_nonce d) = true /\
    assoc "message" fields = JStr <$> message d /\
    assoc "photoBase64" fields = JStr <$> photoBase64 d.
Proof.
  unfold submitSchema. destruct input as [| | | | |fields]; try done.
  unfold json_get. intros H.
  apply bind_Some in H as (la & Hla%z_required_range & H).
  apply bind_Some in H as (lo & Hlo%z_required_range & H).
  apply bind_Some in H as (ac & Hac%z_optional_number & H).
  apply bind_Some in H as (ts & Hts%z_optional_number & H).
  apply bind_Some in H as (no & Hno%z_required_uuid & H).
  apply bind_Some in H as (me & Hme%z_optional_string & H).
  apply bind_Some in H as (ph & Hph%z_optional_string & H).
  injection H as <-. simpl.
  destruct Hla as (? & ? & ?), Hlo as (? & ? & ?), Hno as (? & ?).
  exists fields. repeat split; done.
Qed.

(** X2. The payloads that the schema accepts, and what it makes of them:
    the body is an object; [lat] and [lon] are numbers within their ranges;
    [client_nonce] is a string that matches the UUID pattern; each optional
    key is absent or holds a value of its type (so [null] is refused); the
    validated data are those values, and nothing else of the object. *)
Theorem X2_schema_accepts_exactly is_uuid input (d : SubmitData) :
  submitSchema is_uuid input = Some d <->
  exists fields,
    input = JObj fields /\
    assoc "lat" fields = Some (JNum (lat d)) /\
    (-90 <= lat d)%Q /\ (lat d <= 90)%Q /\
    assoc "lon" fields = Some (JNum (lon d)) /\
    (-180 <= lon d)%Q /\ (lon d <= 180)%Q /\
    assoc "accuracy" fields = JNum <$> accuracy d /\
    assoc "timestamp" fields = JNum <$> timestamp d /\
    assoc "client_nonce" fields = Some (JStr (client_nonce d)) /\
    is_uuid (client_nonce d) = true /\
    assoc "message" fields = JStr <$> message d /\
    assoc "photoBase64" fields = JStr <$> photoBase64 d.
Proof.
  split; [apply submitSchema_fields |].
  intros (? & -> & Hla & ? & ? & Hlo & ? & ? & Hac & Hts & Hno & ? & Hme & Hph).
  unfold submitSchema, json_get.
  destruct d as [la lo ac ts no me ph]. simpl in *.
  apply bind_Some. exists la. split; [by apply z_required_range |].
  apply bind_Some. exists lo. split; [by apply z_required_range |].
  apply bind_Some. exists ac. split; [by apply z_optional_number |].
  apply bind_Some. exists ts. split; [by apply z_optional_number |].
  apply bind_Some. exists no. split; [by apply z_required_uuid |].
  apply bind_Some. exists me. split; [by apply z_optional_string |].
  apply bind_Some. exists ph. split; [by apply z_optional_string |].
  done.
Qed.

Lemma assoc_other k k' v fields :
  k <> k' -> assoc k ((k', v) :: fields) = assoc k fields.
Proof. intros Hne. simpl. by destruct (String.eqb_spec k k'). Qed.

(** X3. A key that the schema does not name is dropped: a payload with
    such a key validates to what it validates to without it. *)
Theorem X3_unknown_keys_are_ignored is_uuid k v fields :
  k ∉ schema_keys ->
  submitSchema is_uuid (JObj ((k, v) :: fields)) = submitSchema is_uuid (JObj fields).
Proof.
  intros Hk. unfold schema_keys in Hk.
  unfold submitSchema, json_get.
  rewrite !assoc_other; [done | ..]; intros <-; apply Hk; set_solver.
Qed.

(** X1. A request whose body is not JSON is answered with HTTP 500
    [server_error] (not with 400); nothing is sent and nothing is stored. *)
Theorem X1_malformed_body_is_server_error is_uuid env o store :
  exists w,
    run (POST is_uuid env malformed o) store =
      (Ret {| http_status := 500;
              body := {| Response.status := "error"; Response.reference := None;
                         Response.code := Some "server_error";
                         Response.message := Some "Internal server error" |} |}, w) /\
    fetches (trace w) = [] /\
    recentSubmissions w = store.
Proof.
  destruct (run_POST is_uuid env malformed o store) as (r & w & Hrun & HH).
  inversion HH; simplify_eq/=. eauto.
Qed.

Lemma submitSchema_optional_null is_uuid fields k :
  k ∈ optional_keys ->
  assoc k fields = Some JNull ->
  submitSchema is_uuid (JObj fields) = None.
Proof.
  intros Hk Hnull. unfold optional_keys in Hk.
  unfold submitSchema, json_get.
  destruct (z.required _ (assoc "lat" fields)); [| done].
  destruct (z.required _ (assoc "lon" fields)); [| done].
  cbn [mbind option_bind].
  apply elem_of_cons in Hk as [-> | Hk]; [by rewrite Hnull |].
  destruct (z.optional _ (assoc "accuracy" fields)); [| done].
  cbn [mbind option_bind].
  apply elem_of_cons in Hk as [-> | Hk]; [by rewrite Hnull |].
  destruct (z.optional _ (assoc "timestamp" fields)); [| done].
  destruct (z.required _ (assoc "client_nonce" fields)); [| done].
  cbn [mbind option_bind].
  apply elem_of_cons in Hk as [-> | Hk]; [by rewrite Hnull |].
  destruct (z.optional _ (assoc "message" fields)); [| done].
  cbn [mbind option_bind].
  apply elem_of_cons in Hk as [-> | Hk]; [by rewrite Hnull |].
  by apply elem_of_nil in Hk.
Qed.

(** X4. An optional key that is present with the value [null] makes the
    payload invalid: HTTP 400 [bad_request], nothing sent, nothing stored. *)
Theorem X4_null_optional_field_is_bad_request is_uuid env fields k o store :
  k ∈ optional_keys ->
  assoc k fields = Some JNull ->
  exists w,
    run (POST is_uuid env (post (JObj fields)) o) store =
      (Ret {| http_status := 400;
              body := {| Response.status := "error"; Response.reference := None;
                         Response.code := Some "bad_request";
                         Response.message := Some "Invalid request data" |} |}, w) /\
    fetches (trace w) = [] /\
    recentSubmissions w = store.
Proof.
  intros Hk Hnull. apply POST_invalid. by apply submitSchema_optional_null with k.
Qed.

(** *** What a run sends and stores *)

Lemma api_key_Some env k :
  api_key env = Some k -> RESEND_API_KEY env = Some k /\ k <> "".
Proof.
  unfold api_key. destruct (RESEND_API_KEY env) as [[|c s]|]; simpl; try done.
  by intros [= <-].
Qed.

Lemma Dispatch_calls env o data cid res evs :
  Dispatch env o data cid res evs ->
  (length (fetches evs) <= 1)%nat /\
  forall bearer payload,
    Fetch bearer payload ∈ evs ->
    api_key env = Some bearer /\
    emailPayload env (now_report o) data cid = Some payload.
Proof.
  destruct 1; simpl; (split; [lia |]); intros b p Hin;
    repeat (apply elem_of_cons in Hin as [Hin | Hin]; simplify_eq; try done);
    by apply elem_of_nil in Hin.
Qed.

(** X5. In one run the transport is called at most once, and a call is made
    only for a payload that passed validation and has no live record, with
    the configured, non-empty API key as the bearer token. *)
Theorem X5_transport_called_at_most_once_for_valid_payloads
    is_uuid env request o store :
  exists r w,
    run (POST is_uuid env request o) store = (Ret r, w) /\
    (length (fetches (trace w)) <= 1)%nat /\
    forall bearer payload,
      Fetch bearer payload ∈ trace w ->
      RESEND_API_KEY env = Some bearer /\ bearer <> "" /\
      exists input data,
        req_body request = Some input /\
        submitSchema is_uuid input = Some data /\
        live (now_check o) (store !! getIdempotencyKey (now_key o) data) = None /\
        emailPayload env (now_report o) data (randomUUID o) = Some payload.
Proof.
  destruct (run_POST is_uuid env request o store) as (r & w & Hrun & HH).
  exists r, w. split; [done |].
  inversion HH; simplify_eq/=.
  1-3: split; [lia |]; intros b p Hin;
       repeat (apply elem_of_cons in Hin as [Hin | Hin]; simplify_eq);
       by apply elem_of_nil in Hin.
  all: match goal with H : Dispatch _ _ _ _ _ _ |- _ =>
         destruct (Dispatch_calls _ _ _ _ _ _ H) as [Hlen Hcalls] end;
       rewrite fetches_app, length_app; simpl; (split; [lia |]);
       intros b p Hin;
       apply elem_of_cons in Hin as [Hin | Hin]; [done |];
       apply elem_of_app in Hin as [Hin | Hin];
       [| apply elem_of_cons in Hin as [Hin | Hin];
          [done | by apply elem_of_nil in Hin]];
       destruct (Hcalls _ _ Hin) as [Hk Hp];
       apply api_key_Some in Hk as [? ?]; eauto 10.
Qed.

Lemma after_write_lookup_cases o key response store k e :
  after_write o key response store !! k = Some e ->
  (k <> key /\ store !! k = Some e) \/
  (k = key /\ e = {| Entry.timestamp := now_write o; Entry.response := response |}).
Proof.
  unfold after_write, sweep. intros H.
  assert (<[key:={| Entry.timestamp := now_write o; Entry.response := response |}]> store
            !! k = Some e) as H'.
  { destruct (JS.ltb (random o) 0.01); [| done].
    by apply map_lookup_filter_Some in H as [H _]. }
  destruct (decide (key = k)) as [->|Hne].
  - rewrite lookup_insert_eq in H'. right. by simplify_eq.
  - rewrite lookup_insert_ne in H' by done. left. done.
Qed.

Lemma after_write_size o key response store :
  (size (after_write o key response store) <= S (size store))%nat.
Proof.
  unfold after_write, sweep.
  assert (size (<[key:={| Entry.timestamp := now_write o;
                          Entry.response := response |}]> store) <= S (size store))%nat.
  { destruct (store !! key) eqn:E.
    - erewrite map_size_insert_Some by done. lia.
    - rewrite map_size_insert_None by done. lia. }
  destruct (JS.ltb (random o) 0.01); [| done].
  etrans; [| done]. apply map_subseteq_size, map_filter_subseteq.
Qed.

(** X6. After a run every record in the store is a record that was there
    before, or the record of this run: written at the run's clock reading,
    under the key of its validated payload, holding the 200 response that
    the run returns after a call of the transport.  The store grows by one
    record at most. *)
Theorem X6_store_holds_old_records_or_the_runs_record
    is_uuid env request o store :
  exists r w,
    run (POST is_uuid env request o) store = (Ret r, w) /\
    (size (recentSubmissions w) <= S (size store))%nat /\
    forall k e,
      recentSubmissions w !! k = Some e ->
      store !! k = Some e \/
      (http_status r = 200 /\
       e = {| Entry.timestamp := now_write o; Entry.response := body r |} /\
       fetches (trace w) <> [] /\
       exists input data,
         req_body request = Some input /\
         submitSchema is_uuid input = Some data /\
         k = getIdempotencyKey (now_key o) data).
Proof.
  destruct (run_POST is_uuid env request o store) as (r & w & Hrun & HH).
  exists r, w. split; [done |].
  inversion HH; simplify_eq/=; try (split; [lia | by eauto]).
  split; [apply after_write_size |].
  intros k e [[_ Hk] | [-> ->]]%after_write_lookup_cases; [by left | right].
  match goal with H : Dispatch _ _ _ _ _ _, E : EmailResult.success _ = true |- _ =>
    destruct (Dispatch_success _ _ _ _ _ _ H E) as (? & ? & ? & _ & _ & _ & -> & ->) end.
  simpl. repeat split; eauto.
Qed.

(** X7. A run that dispatched successfully leaves the records under the
    other keys as the clean-up decides: when the random number is below 0.01
    exactly those written not more than five minutes before the clean-up's
    clock reading stay, otherwise all of them stay. *)
Theorem X7_clean_up_removes_the_expired_records_only
    is_uuid env input data o store r w k :
  submitSchema is_uuid input = Some data ->
  run (POST is_uuid env (post input) o) store = (Ret r, w) ->
  fetches (trace w) <> [] ->
  http_status r = 200 ->
  k <> getIdempotencyKey (now_key o) data ->
  (JS.ltb (random o) 0.01 = true ->
   forall e, recentSubmissions w !! k = Some e <->
             store !! k = Some e /\ now_sweep o - 300000 <= Entry.timestamp e) /\
  (JS.ltb (random o) 0.01 = false ->
   recentSubmissions w !! k = store !! k).
Proof.
  intros Hv Hrun Hf Hs Hk.
  destruct (POST_dispatched _ _ _ _ _ _ _ _ Hv Hrun Hf Hs) as (? & ? & _ & _ & _ & ->).
  unfold after_write, sweep. split; intros ->.
  - intros e. rewrite map_lookup_filter_Some, lookup_insert_ne by done. simpl.
    split; intros [? ?]; split; try done; lia.
  - by rewrite lookup_insert_ne.
Qed.

(** X8. A record that is live during each of a sequence of runs is still
    in the store, unchanged, after them, whatever those runs were; a valid
    request under its key that follows, checked less than five minutes
    after the record was written, is then answered with the record's
    response and makes no call of the transport. *)
Theorem X8_live_record_survives_other_runs
    is_uuid env input data o xs store k e :
  store !! k = Some e ->
  Forall (live_during e) xs ->
  submitSchema is_uuid input = Some data ->
  getIdempotencyKey (now_key o) data = k ->
  now_check o - Entry.timestamp e < 300000 ->
  serve is_uuid xs store !! k = Some e /\
  exists w,
    run (POST is_uuid env (post input) o) (serve is_uuid xs store) =
      (Ret {| http_status := 200; body := Entry.response e |}, w) /\
    fetches (trace w) = [].
Proof.
  intros Hk Hxs Hv Hkey Hwin.
  assert (serve is_uuid xs store !! k = Some e) as Hserve.
  { unfold serve. revert store Hk.
    induction Hxs as [| [[env' request'] o'] xs [Hc Hs] _ IH]; intros store Hk; [done |].
    simpl. apply IH. unfold next_store. simpl in *.
    destruct (run_POST is_uuid env' request' o' store) as (r' & w' & Hrun & _).
    rewrite Hrun. simpl.
    by apply (POST_keeps_live_record is_uuid env' request' o' store r' w'). }
  split; [done |].
  destruct (POST_hit is_uuid env input data o (serve is_uuid xs store) Hv e)
    as (w & Hrun & Hf & _).
  { rewrite Hkey, Hserve. simpl.
    by destruct (Z.ltb_spec (now_check o - Entry.timestamp e) 300000); [| lia]. }
  eauto.
Qed.

(** *** The idempotency key *)

Lemma list_ascii_of_string_app (s t : string) :
  list_ascii_of_string (s +:+ t) = list_ascii_of_string s ++ list_ascii_of_string t.
Proof.
  induction s as [|c s IH]; [done |]. rewrite append_cons. simpl. by rewrite IH.
Qed.

Lemma list_ascii_of_string_length (s : string) :
  length (list_ascii_of_string s) = String.length s.
Proof. induction s as [|c s IH]; simpl; [done | by rewrite IH]. Qed.

Lemma list_ascii_of_string_inj (s t : string) :
  list_ascii_of_string s = list_ascii_of_string t -> s = t.
Proof.
  intros H. rewrite <- (string_of_list_ascii_of_string s),
              <- (string_of_list_ascii_of_string t). by rewrite H.
Qed.

(** Two concatenations with tails of the same length agree part by part. *)
Lemma append_inj_tail (s s' t t' : string) :
  String.length t = String.length t' ->
  s +:+ t = s' +:+ t' -> s = s' /\ t = t'.
Proof.
  intros Hlen H. apply (f_equal list_ascii_of_string) in H.
  rewrite !list_ascii_of_string_app in H.
  apply app_inj_2 in H as [H1 H2];
    [| by rewrite !list_ascii_of_string_length].
  split; by apply list_ascii_of_string_inj.
Qed.

Lemma append_assoc (a b c : string) : (a +:+ b) +:+ c = a +:+ (b +:+ c).
Proof.
  induction a as [|x a IH]; [done |]. rewrite !append_cons. by rewrite IH.
Qed.

Lemma String_of_int_inj (n m : Z) : JS.String_of_int n = JS.String_of_int m -> n = m.
Proof.
  unfold JS.String_of_int. intros H.
  apply DecimalZ.to_int_inj.
  assert (forall z, NilZero.int_of_string (NilZero.string_of_int (Z.to_int z)) =
                    Some (Z.to_int z)) as Hparse.
  { intros z. apply NilZero.isi; destruct z as [|p|p]; simpl; try done;
      intros [= E]; by apply (DecimalPos.Unsigned.to_uint_nonnil p). }
  apply (f_equal NilZero.int_of_string) in H. rewrite !Hparse in H. by simplify_eq.
Qed.

(** The key of a payload tells the minute in which it was computed. *)
Lemma getIdempotencyKey_minute now now' d :
  getIdempotencyKey now d = getIdempotencyKey now' d ->
  now / 60000 = now' / 60000.
Proof.
  unfold getIdempotencyKey. intros H.
  do 4 apply (inj (String.app _)) in H.
  apply append_inj_tail in H as [H _]; [| done].
  by apply String_of_int_inj.
Qed.

(** X9. The key separates submissions by minute and by nonce: the keys of
    one payload computed at two clock readings agree only if the readings
    fall in the same minute, and the keys of two payloads whose nonces have
    the same length agree only if the nonces are equal. *)
Theorem X9_key_separates_minutes_and_nonces now now' (d d' : SubmitData) :
  (getIdempotencyKey now d = getIdempotencyKey now' d ->
   now / 60000 = now' / 60000) /\
  (String.length (client_nonce d) = String.length (client_nonce d') ->
   getIdempotencyKey now d = getIdempotencyKey now' d' ->
   client_nonce d = client_nonce d').
Proof.
  split; [apply getIdempotencyKey_minute |].
  unfold getIdempotencyKey. intros Hlen H.
  rewrite <- !(append_assoc _ ",") in H.
  repeat rewrite <- (append_assoc _ _ (client_nonce _)) in H.
  by apply append_inj_tail in H as [_ H].
Qed.

(** X10. Deduplication does not reach across a minute boundary: after a
    successful dispatch, the same payload submitted again at a clock reading
    in another minute, however soon, is posted to the transport again
    (unless a live record was already stored under its new key). *)
Theorem X10_repeat_in_another_minute_is_dispatched_again
    is_uuid env input data o o' store r w :
  submitSchema is_uuid input = Some data ->
  run (POST is_uuid env (post input) o) store = (Ret r, w) ->
  fetches (trace w) <> [] ->
  http_status r = 200 ->
  now_key o' / 60000 <> now_key o / 60000 ->
  live (now_check o') (store !! getIdempotencyKey (now_key o') data) = None ->
  valid_clock (now_report o') = true ->
  exists r' w' payload,
    run (POST is_uuid env (post input) o') (recentSubmissions w) = (Ret r', w') /\
    fetches (trace w') = [payload].
Proof.
  intros Hv Hrun Hf Hs Hmin Hl Hclock.
  destruct (POST_dispatched _ _ _ _ _ _ _ _ Hv Hrun Hf Hs) as (k & p & Hk & Hp & _ & Hst).
  destruct (POST_miss is_uuid env input data o' (recentSubmissions w) Hv)
    as (res & evs & w' & Hd & Hrun' & Hf' & _).
  { rewrite Hst.
    destruct (after_write o _ _ store !! _) as [e|] eqn:E; [| done].
    apply after_write_lookup_cases in E as [[_ E] | [E _]].
    - by rewrite E in Hl.
    - by apply getIdempotencyKey_minute in E. }
  assert (is_Some (emailPayload env (now_report o') data (randomUUID o'))) as [p' Hp'].
  { eapply emailPayload_again; [| done]. by rewrite Hp. }
  eexists _, w', p'. split; [done |]. rewrite Hf'.
  destruct Hd; simplify_eq/=; done.
Qed.

(** *** The transport's answer *)

(** A valid payload without a live record, with the API key configured and
    a report time that is a valid date: the payload is posted, and the
    answer decides the response and the store. *)
Lemma POST_posted is_uuid env input data o store key payload :
  submitSchema is_uuid input = Some data ->
  live (now_check o) (store !! getIdempotencyKey (now_key o) data) = None ->
  api_key env = Some key ->
  emailPayload env (now_report o) data (randomUUID o) = Some payload ->
  exists w,
    run (POST is_uuid env (post input) o) store =
      (Ret match transport_reply (fetched o) with
           | inr id => {| http_status := 200; body := success_response id |}
           | inl _ => server_error
           end, w) /\
    recentSubmissions w =
      match transport_reply (fetched o) with
      | inr id => after_write o (getIdempotencyKey (now_key o) data)
                              (success_response id) store
      | inl _ => store
      end /\
    trace w =
      [Log (randomUUID o) info "Report submission started" None;
       Fetch key payload] ++
      match transport_reply (fetched o) with
      | inr id => [Log (randomUUID o) info "Email sent successfully" None;
                   Log (randomUUID o) info "Report submission completed" None]
      | inl msg => [Log (randomUUID o) error "Failed to send email" (Some msg);
                    Log (randomUUID o) error "API error"
                        (Some (or_default (Some msg) "Failed to send report email."))]
      end.
Proof.
  intros Hv Hl Hk Hp.
  destruct (run_POST is_uuid env (post input) o store) as (r & w & Hrun & HH).
  exists w. rewrite Hrun.
  inversion HH; simplify_eq/=;
    match goal with H : Dispatch _ _ _ _ _ _ |- _ => destruct H end;
    simplify_eq/=;
    match goal with H : transport_reply _ = _ |- _ => rewrite H end; done.
Qed.

(** X11. When the transport accepts the email with a success status but
    its body is not JSON, or is [null], the handler answers HTTP 500
    [server_error] and stores no record, although the email was posted. *)
Theorem X11_accepted_with_unusable_body_is_server_error
    is_uuid env input data o store key payload reply :
  submitSchema is_uuid input = Some data ->
  live (now_check o) (store !! getIdempotencyKey (now_key o) data) = None ->
  api_key env = Some key ->
  emailPayload env (now_report o) data (randomUUID o) = Some payload ->
  fetched o = Responds reply ->
  Reply.ok reply = true ->
  Reply.json_body reply = None \/ Reply.json_body reply = Some JNull ->
  exists w,
    run (POST is_uuid env (post input) o) store =
      (Ret {| http_status := 500;
              body := {| Response.status := "error"; Response.reference := None;
                         Response.code := Some "server_error";
                         Response.message := Some "Internal server error" |} |}, w) /\
    fetches (trace w) = [payload] /\
    recentSubmissions w = store.
Proof.
  intros Hv Hl Hk Hp Hf Hok Hbody.
  destruct (POST_posted _ _ _ _ _ _ _ _ Hv Hl Hk Hp) as (w & Hrun & Hs & Ht).
  exists w. rewrite Hrun, Hs, Ht. unfold transport_reply. rewrite Hf, Hok. simpl.
  by destruct Hbody as [-> | ->].
Qed.

(** X12. When the transport answers with a success status and a JSON value
    other than [null], the handler answers HTTP 200 with status ["success"]
    and the value's [id] as the reference (no reference when the value has
    no [id]), and stores that response under the payload's key. *)
Theorem X12_reference_is_the_transports_id
    is_uuid env input data o store key payload reply result :
  submitSchema is_uuid input = Some data ->
  live (now_check o) (store !! getIdempotencyKey (now_key o) data) = None ->
  api_key env = Some key ->
  emailPayload env (now_report o) data (randomUUID o) = Some payload ->
  fetched o = Responds reply ->
  Reply.ok reply = true ->
  Reply.json_body reply = Some result ->
  result <> JNull ->
  exists w,
    run (POST is_uuid env (post input) o) store =
      (Ret {| http_status := 200;
              body := {| Response.status := "success";
                         Response.reference := json_get "id" result;
                         Response.code := None; Response.message := None |} |}, w) /\
    fetches (trace w) = [payload] /\
    recentSubmissions w =
      after_write o (getIdempotencyKey (now_key o) data)
                  (success_response (json_get "id" result)) store.
Proof.
  intros Hv Hl Hk Hp Hf Hok Hbody Hnull.
  destruct (POST_posted _ _ _ _ _ _ _ _ Hv Hl Hk Hp) as (w & Hrun & Hs & Ht).
  exists w. rewrite Hrun, Hs, Ht. unfold transport_reply. rewrite Hf, Hok, Hbody. simpl.
  by destruct result.
Qed.

(** X14. When the transport answers with a status that is not a success,
    the status and the body text are logged, twice, as an error under the
    request's correlation id, after the call; the response is the generic
    HTTP 500, which carries neither. *)
Theorem X14_transport_failure_is_logged_not_returned
    is_uuid env input data o store key payload reply :
  submitSchema is_uuid input = Some data ->
  live (now_check o) (store !! getIdempotencyKey (now_key o) data) = None ->
  api_key env = Some key ->
  emailPayload env (now_report o) data (randomUUID o) = Some payload ->
  fetched o = Responds reply ->
  Reply.ok reply = false ->
  exists w,
    run (POST is_uuid env (post input) o) store =
      (Ret {| http_status := 500;
              body := {| Response.status := "error"; Response.reference := None;
                         Response.code := Some "server_error";
                         Response.message := Some "Internal server error" |} |}, w) /\
    trace w =
      [Log (randomUUID o) info "Report submission started" None;
       Fetch key payload;
       Log (randomUUID o) error "Failed to send email"
           (Some ("Email API error: " +:+ JS.String_of_int (Reply.status reply)
                  +:+ " " +:+ Reply.text reply));
       Log (randomUUID o) error "API error"
           (Some ("Email API error: " +:+ JS.String_of_int (Reply.status reply)
                  +:+ " " +:+ Reply.text reply))].
Proof.
  intros Hv Hl Hk Hp Hf Hok.
  destruct (POST_posted _ _ _ _ _ _ _ _ Hv Hl Hk Hp) as (w & Hrun & Hs & Ht).
  exists w. rewrite Hrun, Ht. unfold transport_reply. rewrite Hf, Hok. simpl. done.
Qed.

(** *** The log *)

(** X13. Every run opens its trace with the info line ["Report submission
    started"], writes every log line under the request's correlation id,
    and closes with a log line: an info line when it answers 200, the error
    line ["API error"] with the error's message otherwise. *)
Theorem X13_every_run_is_logged_under_its_correlation_id
    is_uuid env request o store :
  exists r w rest,
    run (POST is_uuid env request o) store = (Ret r, w) /\
    trace w = Log (randomUUID o) info "Report submission started" None :: rest /\
    (forall c l m e, Log c l m e ∈ trace w -> c = randomUUID o) /\
    exists l m e,
      last (trace w) = Some (Log (randomUUID o) l m e) /\
      (http_status r = 200 -> l = info) /\
      (http_status r <> 200 -> l = error /\ m = "API error" /\ is_Some e).
Proof.
  destruct (run_POST is_uuid env request o store) as (r & w & Hrun & HH).
  exists r, w.
  inversion HH; simplify_eq/=;
    try match goal with H : Dispatch _ _ _ _ _ _ |- _ => destruct H end;
    simplify_eq/=;
    (eexists; split; [done |]; split; [reflexivity |]; split;
     [ intros ? ? ? ? Hin;
       repeat (apply elem_of_cons in Hin as [Hin | Hin]; simplify_eq; try done);
       by apply elem_of_nil in Hin
     | eexists _, _, _; split; [reflexivity |]; split; [done |];
       intros ?; by eauto ]).
Qed.

(** *** The envelope *)

(** X15. The addresses of what is posted come from the configuration
    alone: the sender and the recipient are the configured addresses, or
    the built-in ones when a variable is unset or empty; the subject shows
    the coordinates as the text does. *)
Theorem X15_envelope_addresses_come_from_configuration
    is_uuid env input data o store r w payload :
  submitSchema is_uuid input = Some data ->
  run (POST is_uuid env (post input) o) store = (Ret r, w) ->
  payload ∈ fetches (trace w) ->
  Email.from payload =
    match SENDER_EMAIL env with
    | Some "" | None => "reports@qr-garbage-reporter.com"
    | Some address => address
    end /\
  Email.to payload =
    match CITY_OPERATIONS_EMAIL env with
    | Some "" | None => "operations@sf.gov"
    | Some address => address
    end /\
  Email.subject payload =
    "Litter report — " +:+ JS.toFixed 6 (lat data) +:+ "," +:+ JS.toFixed 6 (lon data)
    +:+ " — QR Reporter".
Proof.
  intros Hv Hrun Hin.
  pose proof (POST_fetches_payload _ _ _ _ _ _ _ _ _ Hv Hrun Hin) as Hp.
  unfold emailPayload in Hp.
  destruct (JS.Date_toISOString _); [| done]. simpl in Hp. injection Hp as <-. simpl.
  unfold or_default, where_line.
  split; [by destruct (SENDER_EMAIL env) as [[]|] |].
  split; [by destruct (CITY_OPERATIONS_EMAIL env) as [[]|] |].
  by rewrite append_assoc.
Qed.

(** *** The keys of the store *)

Lemma POST_record_origin is_uuid env request o store r w k e :
  run (POST is_uuid env request o) store = (Ret r, w) ->
  recentSubmissions w !! k = Some e ->
  store !! k = Some e \/
  exists input data,
    req_body request = Some input /\
    submitSchema is_uuid input = Some data /\
    k = getIdempotencyKey (now_key o) data.
Proof.
  intros Hrun Hk. apply Handled_of_run in Hrun.
  inversion Hrun; simplify_eq/=; try by left.
  apply after_write_lookup_cases in Hk as [[_ Hk] | [-> _]]; [by left | right; eauto].
Qed.

(** X18. Whatever requests were served, every key of the store is the key
    of a payload that passed validation: its nonce matches the UUID pattern
    and its coordinates are within their ranges. *)
Theorem X18_store_keys_come_from_valid_payloads is_uuid store k :
  reachable is_uuid store ->
  is_Some (store !! k) ->
  key_of_valid_payload is_uuid k.
Proof.
  intros Hreach. revert k.
  induction Hreach as [| env request o store r w _ IH Hrun]; intros k [e Hk].
  - by rewrite lookup_empty in Hk.
  - destruct (POST_record_origin _ _ _ _ _ _ _ _ _ Hrun Hk)
      as [Hold | (input & data & _ & Hv & ->)].
    + apply IH. by eexists.
    + apply submitSchema_fields in Hv
        as (? & _ & _ & ? & ? & _ & ? & ? & _ & _ & _ & ? & _).
      exists (now_key o), data. repeat split; done.
Qed.

(** *** The health route and the gate *)

Lemma is_set_api_key env : is_set (RESEND_API_KEY env) = true <-> is_Some (api_key env).
Proof.
  unfold is_set, api_key. destruct (RESEND_API_KEY env) as [[|c s]|]; simpl;
    split; try done; by intros [? ?].
Qed.

(** X16. The health route reports the email service as available exactly
    when a valid submission without a live record, whose report time is a
    valid date, is posted to the transport by the submit route. *)
Theorem X16_health_tells_whether_reports_are_sent
    is_uuid penv now h input data o store :
  GET penv now = Some h ->
  submitSchema is_uuid input = Some data ->
  live (now_check o) (store !! getIdempotencyKey (now_key o) data) = None ->
  is_Some (JS.TimeClip (report_time (now_report o) data)) ->
  exists r w,
    run (POST is_uuid (submit_env penv) (post input) o) store = (Ret r, w) /\
    (Health.email (Health.services_of h) = true <-> fetches (trace w) <> []).
Proof.
  intros Hget Hv Hl Ht.
  unfold GET in Hget. destruct (JS.Date_toISOString (inject_Z now)); [| done].
  simpl in Hget. injection Hget as <-. simpl.
  pose proof (is_set_api_key (submit_env penv)) as Hset.
  apply emailPayload_is_Some with (env := submit_env penv) (cid := randomUUID o) in Ht
    as [payload Hp].
  destruct (api_key (submit_env penv)) as [key|] eqn:Hk.
  - destruct (POST_posted _ _ _ _ _ _ _ _ Hv Hl Hk Hp) as (w & Hrun & _ & Htr).
    eexists _, w. split; [done |]. rewrite Hset, Htr. simpl. split; [done | by eauto].
  - destruct (POST_miss is_uuid (submit_env penv) input data o store Hv Hl)
      as (res & evs & w & Hd & Hrun & Hf & _).
    eexists _, w. split; [done |]. rewrite Hset, Hf.
    destruct Hd; simplify_eq/=. split; [by intros [? ?] | done].
Qed.

(** X17. Every coordinate pair that the gate accepts is within the ranges
    that the schema demands of [lat] and [lon]. *)
Theorem X17_gate_accepts_valid_coordinates_only (lat0 lon0 : Q) :
  isInSanFrancisco lat0 lon0 = true ->
  z.max 90 (z.min (-90) z.number) (JNum lat0) = Some lat0 /\
  z.max 180 (z.min (-180) z.number) (JNum lon0) = Some lon0.
Proof.
  intros (Hlat & Hlon)%isInSanFrancisco_iff.
  destruct Hlat as [Hs Hn], Hlon as [Hw He].
  assert ((-90 <= lat0)%Q /\ (lat0 <= 90)%Q /\ (-180 <= lon0)%Q /\ (lon0 <= 180)%Q)
    as (H1 & H2 & H3 & H4).
  { repeat split.
    - eapply Qle_trans; [| exact Hs]. by vm_compute.
    - eapply Qle_trans; [exact Hn |]. by vm_compute.
    - eapply Qle_trans; [| exact Hw]. by vm_compute.
    - eapply Qle_trans; [exact He |]. by vm_compute. }
  apply Qle_bool_iff in H1, H2, H3, H4.
  unfold z.max, z.min, z.number, JS.leb. by rewrite H1, H2, H3, H4.
Qed.

(* ===================================================================== *)
(** ** The page and the route together                                   *)
(* ===================================================================== *)

Lemma Page_payload_valid is_uuid locationData nonce p :
  on_earth (LocationData.lat locationData) (LocationData.lon locationData) ->
  is_uuid nonce = true ->
  submitSchema is_uuid (Page.payload locationData nonce p) =
    Some (page_data locationData nonce p).
Proof.
  intros (H1 & H2 & H3 & H4) Hn. apply Qle_bool_iff in H1, H2, H3, H4.
  unfold submitSchema, Page.payload, page_data, json_get. simpl.
  unfold z.max, z.min, z.number, z.uuid, z.string, JS.leb.
  rewrite H1, H2, H3, H4, Hn. simpl.
  by destruct (Page.photo p).
Qed.

(** X19. The payload that the page builds from a position on earth and a
    UUID nonce passes validation, with the typed message (empty or not) and
    the photo's data URL when a photo is held; the route answers it with
    HTTP 200 or HTTP 500, never with HTTP 400. *)
Theorem X19_page_payload_passes_validation
    is_uuid env o store locationData nonce p :
  on_earth (LocationData.lat locationData) (LocationData.lon locationData) ->
  is_uuid nonce = true ->
  submitSchema is_uuid (Page.payload locationData nonce p) =
    Some {| lat := LocationData.lat locationData;
            lon := LocationData.lon locationData;
            accuracy := Some (LocationData.accuracy locationData);
            timestamp := Some (inject_Z (LocationData.timestamp locationData));
            client_nonce := nonce;
            message := Some (Page.message p);
            photoBase64 := Photo.dataUrl <$> Page.photo p |} /\
  exists r w,
    run (POST is_uuid env (post (Page.payload locationData nonce p)) o) store =
      (Ret r, w) /\
    (http_status r = 200 \/ http_status r = 500).
Proof.
  intros Hearth Hn.
  pose proof (Page_payload_valid is_uuid locationData nonce p Hearth Hn) as Hv.
  split; [exact Hv |]. by eapply POST_valid_status.
Qed.

(** X20. The page and the route end to end: when the browser yields a
    position on earth and the nonce is a UUID, the page ends in the state
    [Success], holding the route's response, exactly when the route answers
    HTTP 200, and otherwise in the state [Error] showing the route's text
    ["Internal server error"]. *)
Theorem X20_page_shows_what_the_route_answers
    is_uuid env o store latitude longitude accuracy now nonce p :
  on_earth latitude longitude ->
  is_uuid nonce = true ->
  exists r w,
    run (POST is_uuid env
           (post (Page.payload
                    {| LocationData.lat := latitude; LocationData.lon := longitude;
                       LocationData.accuracy := accuracy;
                       LocationData.timestamp := now |}
                    nonce p)) o) store = (Ret r, w) /\
    let p' := Page.requestLocation (Located latitude longitude accuracy) now
                (submit_route is_uuid env o store) nonce p in
    (http_status r = 200 /\
     Page.state p' = Page.Success /\
     Page.response p' =
       Some {| SubmissionResponse.status := Response.status (body r);
               SubmissionResponse.reference := Response.reference (body r);
               SubmissionResponse.message := Response.message (body r) |} /\
     Page.error p' = "") \/
    (http_status r = 500 /\
     Page.state p' = Page.Error /\
     Page.error p' = "Internal server error").
Proof.
  intros Hearth Hn.
  set (loc := {| LocationData.lat := latitude; LocationData.lon := longitude;
                 LocationData.accuracy := accuracy; LocationData.timestamp := now |}).
  assert (submitSchema is_uuid (Page.payload loc nonce p) =
          Some (page_data loc nonce p)) as Hv by by apply Page_payload_valid.
  destruct (run_POST is_uuid env (post (Page.payload loc nonce p)) o store)
    as (r & w & Hrun & HH).
  exists r, w. split; [done |].
  unfold Page.requestLocation, Page.submitReport, submit_route.
  assert (forall q, Page.payload loc nonce (Page.setState Page.Submitting q) =
                    Page.payload loc nonce q) as Hsame by done.
  fold loc.
  assert (Page.payload loc nonce
            (Page.setState Page.Submitting
               (Page.setLocation (Some loc)
                  (Page.setError "" (Page.setState Page.RequestingLocation p)))) =
          Page.payload loc nonce p) as -> by done.
  rewrite Hrun. simpl.
  inversion HH; simplify_eq/=; [left | right | left]; done.
Qed.

Lemma or_default_nonempty a b : b <> "" -> or_default a b <> "".
Proof. unfold or_default. by destruct a as [[|c s]|]. Qed.

(** X21. Whatever the browser's geolocation does and whatever the exchange
    with the server gives, [requestLocation] leaves the page in the state
    [Success] or in the state [Error], and in the latter with an error text
    to show; it keeps the typed message and the photo. *)
Theorem X21_request_location_ends_in_success_or_error
    geo now fetch nonce p :
  let p' := Page.requestLocation geo now fetch nonce p in
  (Page.state p' = Page.Success \/
   (Page.state p' = Page.Error /\ Page.error p' <> "")) /\
  Page.message p' = Page.message p /\
  Page.photo p' = Page.photo p.
Proof.
  unfold Page.requestLocation, Page.submitReport.
  destruct geo as [| la lo acc | code |]; simpl.
  - split; [by right | done].
  - destruct (fetch _) as [| [] result]; simpl; (split; [| done]);
      [by right | by left |].
    right. split; [done |]. by apply or_default_nonempty.
  - split; [| done]. right. split; [done |].
    by destruct (code =? 1), (code =? 2), (code =? 3).
  - split; [by right | done].
Qed.

(* ===================================================================== *)
(** ** The further properties on concrete runs                           *)
(* ===================================================================== *)

Lemma X2_witness : uuid_shape (client_nonce Sample.data) = true.
Proof.
  destruct (proj1 (X2_schema_accepts_exactly uuid_shape Sample.payload Sample.data))
    as (fields & _ & _ & _ & _ & _ & _ & _ & _ & _ & _ & H & _);
    [vm_compute; reflexivity | exact H].
Defined.

Lemma X3_witness :
  submitSchema uuid_shape with_unknown_key = submitSchema uuid_shape (JObj sample_bare).
Proof.
  apply (X3_unknown_keys_are_ignored uuid_shape "honeypot" (JStr "x") sample_bare).
  unfold schema_keys. intros H.
  repeat (apply elem_of_cons in H as [H | H]; [discriminate |]).
  by apply elem_of_nil in H.
Defined.

Lemma X4_witness :
  exists w,
    run (POST uuid_shape Sample.env (post (JObj null_message))
           (Sample.at_time t0 Sample.healthy)) ∅ =
      (Ret {| http_status := 400;
              body := {| Response.status := "error"; Response.reference := None;
                         Response.code := Some "bad_request";
                         Response.message := Some "Invalid request data" |} |}, w) /\
    fetches (trace w) = [] /\
    recentSubmissions w = ∅.
Proof.
  apply (X4_null_optional_field_is_bad_request uuid_shape Sample.env null_message
           "message").
  - unfold optional_keys. do 2 apply list_elem_of_further. apply list_elem_of_here.
  - reflexivity.
Defined.

Lemma X5_witness : (length (fetches (trace first_run.2)) <= 1)%nat.
Proof.
  destruct (X5_transport_called_at_most_once_for_valid_payloads uuid_shape Sample.env
              Sample.request (Sample.at_time t0 Sample.healthy) ∅)
    as (r & w & Hrun & Hlen & _).
  unfold first_run. rewrite Hrun. exact Hlen.
Defined.

Lemma X6_witness : (size (recentSubmissions first_run.2) <= 1)%nat.
Proof.
  destruct (X6_store_holds_old_records_or_the_runs_record uuid_shape Sample.env
              Sample.request (Sample.at_time t0 Sample.healthy) ∅)
    as (r & w & Hrun & Hsize & _).
  unfold first_run. rewrite Hrun. exact Hsize.
Defined.

Lemma X7_witness :
  recentSubmissions
    (run (POST uuid_shape Sample.env Sample.request (sweeping t0 Sample.healthy))
         old_store).2 !! "stale" = None.
Proof.
  set (x := run (POST uuid_shape Sample.env Sample.request (sweeping t0 Sample.healthy))
                old_store).
  destruct (recentSubmissions x.2 !! "stale") as [e|] eqn:E; [| reflexivity].
  destruct (X7_clean_up_removes_the_expired_records_only uuid_shape Sample.env
              Sample.payload Sample.data (sweeping t0 Sample.healthy) old_store
              email_123 x.2 "stale") as [H _];
    [vm_compute; reflexivity | vm_compute; reflexivity | vm_compute; discriminate
    | reflexivity | vm_compute; discriminate |].
  apply H in E as [E Hle]; [| reflexivity].
  vm_compute in E. injection E as <-. simpl in Hle. unfold t0 in Hle. lia.
Defined.

Lemma X8_witness :
  exists w,
    run (POST uuid_shape Sample.env Sample.request ten_seconds_later)
        (serve uuid_shape other_traffic (recentSubmissions first_run.2)) =
      (Ret email_123, w) /\
    fetches (trace w) = [].
Proof.
  destruct (X8_live_record_survives_other_runs uuid_shape Sample.env Sample.payload
              Sample.data ten_seconds_later other_traffic
              (recentSubmissions first_run.2)
              (getIdempotencyKey t0 Sample.data) first_record) as [_ H].
  - vm_compute. reflexivity.
  - repeat constructor; simpl; unfold t0; lia.
  - vm_compute. reflexivity.
  - vm_compute. reflexivity.
  - simpl. unfold t0. lia.
  - exact H.
Defined.

Lemma X9_witness : t0 / 60000 = (t0 + 10000) / 60000.
Proof.
  apply (proj1 (X9_key_separates_minutes_and_nonces t0 (t0 + 10000)
                  Sample.data Sample.data)).
  vm_compute. reflexivity.
Defined.

Lemma X10_witness :
  exists r' w' payload,
    run (POST uuid_shape Sample.env Sample.request thirty_seconds_later)
        (recentSubmissions first_run.2) = (Ret r', w') /\
    fetches (trace w') = [payload].
Proof.
  apply (X10_repeat_in_another_minute_is_dispatched_again uuid_shape Sample.env
           Sample.payload Sample.data (Sample.at_time t0 Sample.healthy)
           thirty_seconds_later ∅ email_123 first_run.2);
    try (vm_compute; reflexivity); vm_compute; discriminate.
Defined.

Lemma X11_witness :
  exists w,
    run (POST uuid_shape Sample.env Sample.request
           (Sample.at_time t0 accepted_no_json)) ∅ = (Ret server_error, w) /\
    recentSubmissions w = ∅.
Proof.
  destruct (emailPayload Sample.env t0 Sample.data "req-1") as [payload|] eqn:Hp;
    [| vm_compute in Hp; discriminate].
  destruct (X11_accepted_with_unusable_body_is_server_error uuid_shape Sample.env
              Sample.payload Sample.data (Sample.at_time t0 accepted_no_json) ∅
              "re_test" payload
              {| Reply.status := 202; Reply.text := "Accepted";
                 Reply.json_body := None |})
    as (w & Hrun & _ & Hs);
    [vm_compute; reflexivity | reflexivity | reflexivity | exact Hp | reflexivity
    | reflexivity | by left |].
  exists w. split; [exact Hrun | exact Hs].
Defined.

Lemma X12_witness :
  exists w,
    run (POST uuid_shape Sample.env Sample.request
           (Sample.at_time t0 accepted_no_id)) ∅ =
      (Ret {| http_status := 200; body := success_response None |}, w).
Proof.
  destruct (emailPayload Sample.env t0 Sample.data "req-1") as [payload|] eqn:Hp;
    [| vm_compute in Hp; discriminate].
  destruct (X12_reference_is_the_transports_id uuid_shape Sample.env
              Sample.payload Sample.data (Sample.at_time t0 accepted_no_id) ∅
              "re_test" payload
              {| Reply.status := 200; Reply.text := "{}";
                 Reply.json_body := Some (JObj []) |} (JObj []))
    as (w & Hrun & _);
    [vm_compute; reflexivity | reflexivity | reflexivity | exact Hp | reflexivity
    | reflexivity | reflexivity | discriminate |].
  exists w. exact Hrun.
Defined.

Lemma X13_witness :
  exists rest,
    trace first_run.2 = Log "req-1" info "Report submission started" None :: rest.
Proof.
  destruct (X13_every_run_is_logged_under_its_correlation_id uuid_shape Sample.env
              Sample.request (Sample.at_time t0 Sample.healthy) ∅)
    as (r & w & rest & Hrun & Ht & _).
  exists rest. unfold first_run. rewrite Hrun. exact Ht.
Defined.

Lemma X14_witness :
  exists w payload,
    run (POST uuid_shape Sample.env Sample.request
           (Sample.at_time t0 Sample.unavailable)) ∅ = (Ret server_error, w) /\
    trace w =
      [Log "req-1" info "Report submission started" None;
       Fetch "re_test" payload;
       Log "req-1" error "Failed to send email"
           (Some "Email API error: 503 Service Unavailable");
       Log "req-1" error "API error"
           (Some "Email API error: 503 Service Unavailable")].
Proof.
  destruct (emailPayload Sample.env t0 Sample.data "req-1") as [payload|] eqn:Hp;
    [| vm_compute in Hp; discriminate].
  destruct (X14_transport_failure_is_logged_not_returned uuid_shape Sample.env
              Sample.payload Sample.data (Sample.at_time t0 Sample.unavailable) ∅
              "re_test" payload
              {| Reply.status := 503; Reply.text := "Service Unavailable";
                 Reply.json_body := None |})
    as (w & Hrun & Ht);
    [vm_compute; reflexivity | reflexivity | reflexivity | exact Hp | reflexivity
    | reflexivity |].
  exists w, payload. split; [exact Hrun | exact Ht].
Defined.

Lemma X15_witness :
  Email.to <$> posted first_run = Some "operations@sf.gov"%string.
Proof.
  destruct (posted first_run) as [payload|] eqn:E; [| vm_compute in E; discriminate].
  destruct (X15_envelope_addresses_come_from_configuration uuid_shape Sample.env
              Sample.payload Sample.data (Sample.at_time t0 Sample.healthy) ∅
              email_123 first_run.2 payload)
    as (_ & Hto & _); [vm_compute; reflexivity .. | |].
  - unfold posted in E. destruct (fetches (trace first_run.2)) as [|p l]; [discriminate |].
    injection E as ->. apply list_elem_of_here.
  - simpl. f_equal. exact Hto.
Defined.

Lemma X16_witness :
  (fun h => Health.email (Health.services_of h)) <$> GET sample_process_env t0 =
    Some true.
Proof.
  destruct (GET sample_process_env t0) as [h|] eqn:Hg; [| vm_compute in Hg; discriminate].
  simpl. f_equal.
  destruct (X16_health_tells_whether_reports_are_sent uuid_shape sample_process_env t0 h
              Sample.payload Sample.data (Sample.at_time t0 Sample.healthy) ∅ Hg)
    as (r & w & Hrun & Hiff);
    [vm_compute; reflexivity | reflexivity | vm_compute; by eexists |].
  apply Hiff. vm_compute in Hrun. injection Hrun as _ <-. discriminate.
Defined.

Lemma X17_witness :
  z.max 90 (z.min (-90) z.number) (JNum 37.7749) = Some 37.7749%Q /\
  z.max 180 (z.min (-180) z.number) (JNum (-122.4194)) = Some (-122.4194)%Q.
Proof.
  apply (X17_gate_accepts_valid_coordinates_only 37.7749 (-122.4194)).
  vm_compute. reflexivity.
Defined.

Lemma X18_witness :
  key_of_valid_payload uuid_shape (getIdempotencyKey t0 Sample.data).
Proof.
  apply (X18_store_keys_come_from_valid_payloads uuid_shape
           (recentSubmissions first_run.2)).
  - apply (reach_step uuid_shape Sample.env Sample.request
             (Sample.at_time t0 Sample.healthy) ∅ email_123 first_run.2).
    + apply reach_start.
    + vm_compute. reflexivity.
  - vm_compute. by eexists.
Defined.

Lemma X19_witness :
  exists r w,
    run (POST uuid_shape Sample.env
           (post (Page.payload
                    {| LocationData.lat := 37.7749; LocationData.lon := -122.4194;
                       LocationData.accuracy := 10; LocationData.timestamp := t0 |}
                    Sample.nonce (fresh_page "")))
           (Sample.at_time t0 Sample.healthy)) ∅ = (Ret r, w) /\
    (http_status r = 200 \/ http_status r = 500).
Proof.
  apply (X19_page_payload_passes_validation uuid_shape Sample.env
           (Sample.at_time t0 Sample.healthy) ∅
           {| LocationData.lat := 37.7749; LocationData.lon := -122.4194;
              LocationData.accuracy := 10; LocationData.timestamp := t0 |}
           Sample.nonce (fresh_page "")).
  - unfold on_earth, Qle. simpl. lia.
  - vm_compute. reflexivity.
Defined.

Lemma X20_witness :
  Page.state
    (Page.requestLocation (Located 37.7749 (-122.4194) 10) t0
       (submit_route uuid_shape Sample.env (Sample.at_time t0 Sample.healthy) ∅)
       Sample.nonce (fresh_page "Boxes behind bus stop")) = Page.Success.
Proof.
  destruct (X20_page_shows_what_the_route_answers uuid_shape Sample.env
              (Sample.at_time t0 Sample.healthy) ∅ 37.7749 (-122.4194) 10 t0
              Sample.nonce (fresh_page "Boxes behind bus stop"))
    as (r & w & Hrun & [(_ & H & _) | (Hs & _)]).
  - unfold on_earth, Qle. simpl. lia.
  - vm_compute. reflexivity.
  - exact H.
  - vm_compute in Hrun. injection Hrun as <- _. discriminate.
Defined.
